(** * mcp-pdf: the document composition pipeline

    A shallow embedding of [mcp_pdf/models/theme_spec.py],
    [mcp_pdf/models/document_spec.py] and
    [mcp_pdf/rendering/pdf_generator.py], and the properties of the
    pipeline proved over it.

    Conventions of the embedding.
    - Python [str] is [string] (a byte string; text is taken UTF-8 encoded).
      [str.isalnum] and [str.lower] are taken at their ASCII restriction.
    - [Optional[T]] is [option T]; the truth test [if x:] on an optional
      string or list is [truthy]: set and not empty.
    - Python [float] values (inches, spacings) are exact rationals [Q].
    - The generator object's mutable attributes and the file system it
      touches are the fields of [State]; a method is a function in the
      monad [M], which threads the state and an exception.  A raised
      exception keeps the state reached so far, as in Python.
    - What the operating system, the network, the clock and the external
      diagram tool answer is read from a [World] of oracles.
    - reportlab is the layout backend: its flowables are the constructors
      of [Flowable], total on arguments of the declared type.  [Paragraph]
      declares [text : str]; handed [None] it raises (its text cleaner
      calls a [str] method on the argument), which [mk_Paragraph] models. *)

From Stdlib Require Import QArith.
From stdpp Require Import gmap strings list fin_maps pretty.

Local Open Scope Z_scope.

(** ** Python helpers *)

Definition non_empty (s : string) : bool :=
  match s with EmptyString => false | String _ _ => true end.

(** [if x:] for [x : Optional[str]]. *)
Definition truthy (o : option string) : bool :=
  match o with Some s => non_empty s | None => false end.

(** [if xs:] for [xs : Optional[List[T]]]. *)
Definition truthy_list {A} (o : option (list A)) : bool :=
  match o with Some (_ :: _) => true | _ => false end.

(** [a or b] on optional strings. *)
Definition py_or (a b : option string) : option string :=
  if truthy a then a else b.

(** [a or d] with a literal default. *)
Definition or_default (a : option string) (d : string) : string :=
  match a with Some s => if non_empty s then s else d | None => d end.

(** [s.startswith(p)] *)
Fixpoint startswith (p s : string) : bool :=
  match p, s with
  | EmptyString, _ => true
  | String a p', String b s' => if decide (a = b) then startswith p' s' else false
  | String _ _, EmptyString => false
  end.

(** [sep.join(l)] *)
Fixpoint join (sep : string) (l : list string) : string :=
  match l with
  | [] => EmptyString
  | [x] => x
  | x :: rest => x +:+ sep +:+ join sep rest
  end.

Definition newline : string := String (Ascii.ascii_of_nat 10) EmptyString.

(** The bullet glyph U+2022, UTF-8 encoded. *)
Definition bullet_glyph : string :=
  String (Ascii.ascii_of_nat 226)
    (String (Ascii.ascii_of_nat 128)
       (String (Ascii.ascii_of_nat 162) EmptyString)).

(** ** models/theme_spec.py *)

Module ColorPalette.
Record t := mk {
  primary : string;
  secondary : string;
  accent : string;
  background : string;
  text : string;
  code_bg : string }.

(** The keyword arguments (or the dict) the model is built from: any
    subset of the fields. *)
Record input := mk_input {
  in_primary : option string;
  in_secondary : option string;
  in_accent : option string;
  in_background : option string;
  in_text : option string;
  in_code_bg : option string }.

Definition no_input : input := mk_input None None None None None None.

(** Model construction: every [Field(default, ...)] fills an absent field. *)
Definition model_validate (i : input) : t :=
  {| primary := default "#E3342F" (in_primary i);
     secondary := default "#1CCBD0" (in_secondary i);
     accent := default "#F59E0B" (in_accent i);
     background := default "#FFFFFF" (in_background i);
     text := default "#111827" (in_text i);
     code_bg := default "#F5F5F5" (in_code_bg i) |}.
End ColorPalette.

Module FontPalette.
Record t := mk {
  heading : string;
  body : string;
  code : string }.

Record input := mk_input {
  in_heading : option string;
  in_body : option string;
  in_code : option string }.

Definition no_input : input := mk_input None None None.

Definition model_validate (i : input) : t :=
  {| heading := default "Helvetica-Bold" (in_heading i);
     body := default "Helvetica" (in_body i);
     code := default "Courier" (in_code i) |}.
End FontPalette.

Module ThemeSpec.
Record t := mk {
  colors : ColorPalette.t;
  fonts : FontPalette.t;
  logo_path : option string;
  title_font_size : Z;
  subtitle_font_size : Z;
  h1_font_size : Z;
  h2_font_size : Z;
  h3_font_size : Z;
  body_font_size : Z;
  code_font_size : Z;
  line_spacing : Q;
  paragraph_spacing : Q;
  page_width : Q;
  page_height : Q;
  margin_top : Q;
  margin_bottom : Q;
  margin_left : Q;
  margin_right : Q }.

Record input := mk_input {
  in_colors : option ColorPalette.input;
  in_fonts : option FontPalette.input;
  in_logo_path : option string;
  in_title_font_size : option Z;
  in_subtitle_font_size : option Z;
  in_h1_font_size : option Z;
  in_h2_font_size : option Z;
  in_h3_font_size : option Z;
  in_body_font_size : option Z;
  in_code_font_size : option Z;
  in_line_spacing : option Q;
  in_paragraph_spacing : option Q;
  in_page_width : option Q;
  in_page_height : option Q;
  in_margin_top : option Q;
  in_margin_bottom : option Q;
  in_margin_left : option Q;
  in_margin_right : option Q }.

Definition no_input : input :=
  mk_input None None None None None None None None None
           None None None None None None None None None.

(** [default_factory=ColorPalette] builds the palette from no input; a
    supplied sub-object is validated by its own model. *)
Definition model_validate (i : input) : t :=
  {| colors := ColorPalette.model_validate
                 (default ColorPalette.no_input (in_colors i));
     fonts := FontPalette.model_validate
                (default FontPalette.no_input (in_fonts i));
     logo_path := in_logo_path i;
     title_font_size := default 24 (in_title_font_size i);
     subtitle_font_size := default 16 (in_subtitle_font_size i);
     h1_font_size := default 18 (in_h1_font_size i);
     h2_font_size := default 14 (in_h2_font_size i);
     h3_font_size := default 12 (in_h3_font_size i);
     body_font_size := default 10 (in_body_font_size i);
     code_font_size := default 9 (in_code_font_size i);
     line_spacing := default (12 # 10)%Q (in_line_spacing i);
     paragraph_spacing := default 6%Q (in_paragraph_spacing i);
     page_width := default 612%Q (in_page_width i);
     page_height := default 792%Q (in_page_height i);
     margin_top := default 72%Q (in_margin_top i);
     margin_bottom := default 72%Q (in_margin_bottom i);
     margin_left := default 72%Q (in_margin_left i);
     margin_right := default 72%Q (in_margin_right i) |}.

(** [ThemeSpec()] *)
Definition defaults : t := model_validate no_input.
End ThemeSpec.

(** ** models/document_spec.py *)

Inductive PageType :=
| TITLE | TOC | SECTION | CONTENT | CODE
| DIAGRAM | IMAGE | MERMAID | SUMMARY | REFERENCES.

Global Instance PageType_eq_dec : EqDecision PageType.
Proof. solve_decision. Defined.

(** The member's string value: [PageType] is a [str] enum. *)
Definition PageType_value (p : PageType) : string :=
  match p with
  | TITLE => "title" | TOC => "toc" | SECTION => "section"
  | CONTENT => "content" | CODE => "code" | DIAGRAM => "diagram"
  | IMAGE => "image" | MERMAID => "mermaid" | SUMMARY => "summary"
  | REFERENCES => "references"
  end.

Module ContentItem.
Record t := mk {
  type : string;
  text : option string;
  items : option (list string);
  code : option string;
  language : option string;
  image_path : option string;
  image_url : option string;
  caption : option string;
  table_data : option (list (list string));
  table_headers : option (list string) }.
End ContentItem.

(** [Optional[Union[str, List[str]]]] *)
Inductive Description :=
| DescStr (s : string)
| DescList (l : list string).

(** [if page.description:] *)
Definition truthy_desc (d : option Description) : bool :=
  match d with
  | Some (DescStr s) => non_empty s
  | Some (DescList (_ :: _)) => true
  | _ => false
  end.

Module PageSpec.
Record t := mk {
  page_type : PageType;
  title : option string;
  subtitle : option string;
  author : option string;
  date : option string;
  additional_info : option string;
  entries : option (list string);
  content : option (list ContentItem.t);
  code : option string;
  language : option string;
  line_numbers : bool;
  image_path : option string;
  image_url : option string;
  diagram_path : option string;
  diagram_url : option string;
  caption : option string;
  description : option Description;
  mermaid_code : option string;
  key_points : option (list string);
  conclusion : option string;
  references : option (list string);
  style : string }.

(** [PageSpec(page_type=k)]: every optional field at its declared default. *)
Definition blank (k : PageType) : t :=
  mk k None None None None None None None None None false
     None None None None None None None None None None "numbered".
End PageSpec.

(** The raw input of the [mode='before'] validator: the values of the
    wire format (JSON data), and enum members, which callers building a
    page in Python pass for [page_type]. *)
Unset Elimination Schemes.
Inductive value :=
| VNone
| VBool (b : bool)
| VNum (z : Z)
| VStr (s : string)
| VEnum (p : PageType)
| VList (l : list value)
| VDict (l : list (string * value)).
Set Elimination Schemes.

(** [isinstance(image_value, str) and
     image_value.startswith(('http://', 'https://'))].
    An enum member is a [str] too; the test is made on its value. *)
Definition is_url_value (v : value) : bool :=
  match v with
  | VStr s => startswith "http://" s || startswith "https://" s
  | VEnum p => startswith "http://" (PageType_value p)
               || startswith "https://" (PageType_value p)
  | _ => false
  end.

(** [page_type == 'diagram' or page_type == PageType.DIAGRAM] *)
Definition is_diagram_type (pt : option value) : bool :=
  match pt with
  | Some (VStr s) => bool_decide (s = "diagram")
  | Some (VEnum p) => bool_decide (p = DIAGRAM)
  | _ => false
  end.

(** [PageSpec.handle_image_field] on a dict. *)
Definition handle_image_field_dict (values : gmap string value)
  : gmap string value :=
  match values !! "image" with
  | Some image_value =>
      let values := delete "image" values in
      let page_type := values !! "page_type" in
      let is_url := is_url_value image_value in
      if is_diagram_type page_type then
        if is_url then <["diagram_url" := image_value]> values
        else <["diagram_path" := image_value]> values
      else
        if is_url then <["image_url" := image_value]> values
        else <["image_path" := image_value]> values
  | None => values
  end.

(** What the validator may be handed: a dict, or anything else, which it
    returns unchanged. *)
Inductive raw :=
| RawDict (d : gmap string value)
| RawOther (v : value).

Definition handle_image_field (values : raw) : raw :=
  match values with
  | RawDict d => RawDict (handle_image_field_dict d)
  | RawOther v => RawOther v
  end.

Module OutputSpec.
Record t := mk {
  filename : option string;
  directory : string }.
End OutputSpec.

Module DocumentSpec.
Record t := mk {
  title : string;
  theme : ThemeSpec.t;
  pages : list PageSpec.t;
  output : OutputSpec.t }.
End DocumentSpec.

(** ** The layout backend (reportlab), as data *)

Inductive Color :=
| HexColor (hex : string)
| whitesmoke | beige | black.

Inductive Alignment := TA_LEFT | TA_CENTER | TA_JUSTIFY.

(** The keyword arguments a [ParagraphStyle] is created with. *)
Record StyleAttrs := {
  fontSize : option Z;
  textColor : option Color;
  spaceAfter : option Q;
  spaceBefore : option Q;
  alignment : option Alignment;
  fontName : option string;
  leftIndent : option Z;
  rightIndent : option Z }.

Definition no_attrs : StyleAttrs :=
  Build_StyleAttrs None None None None None None None None.

(** A style of [getSampleStyleSheet()], or one derived from a parent. *)
Inductive ParagraphStyle :=
| SampleStyle (key : string)
| DerivedStyle (name : string) (parent : ParagraphStyle) (attrs : StyleAttrs).

Inductive TableCmd :=
| BACKGROUND (start stop : Z * Z) (c : Color)
| TEXTCOLOR (start stop : Z * Z) (c : Color)
| ALIGN (start stop : Z * Z) (a : string)
| FONTNAME (start stop : Z * Z) (f : string)
| FONTSIZE (start stop : Z * Z) (sz : Z)
| BOTTOMPADDING (start stop : Z * Z) (pad : Z)
| GRID (start stop : Z * Z) (width : Z) (c : Color).

Inductive Flowable :=
| Paragraph (text : string) (style : ParagraphStyle)
| Spacer (width height : Q)
| PageBreak
| Table (data : list (list string)) (style : list TableCmd)
| Image (filename : string) (width height : Q)
| Preformatted (text : string) (style : ParagraphStyle) (maxLineLength : Z).

Definition inch : Q := 72%Q.

Definition is_PageBreak (f : Flowable) : bool :=
  match f with PageBreak => true | _ => false end.

Definition is_Image (f : Flowable) : bool :=
  match f with Image _ _ _ => true | _ => false end.

Definition is_Paragraph (f : Flowable) : bool :=
  match f with Paragraph _ _ => true | _ => false end.

(** [self.styles], with the eight keys [_setup_styles] assigns. *)
Record StyleTable := {
  st_title : ParagraphStyle;
  st_subtitle : ParagraphStyle;
  st_h1 : ParagraphStyle;
  st_h2 : ParagraphStyle;
  st_h3 : ParagraphStyle;
  st_body : ParagraphStyle;
  st_bullet : ParagraphStyle;
  st_code : ParagraphStyle }.

(** [PDFGenerator._setup_styles] *)
Definition _setup_styles (theme : ThemeSpec.t) : StyleTable :=
  let ps := ThemeSpec.paragraph_spacing theme in
  let colors := ThemeSpec.colors theme in
  let fonts := ThemeSpec.fonts theme in
  {| st_title := DerivedStyle "Title" (SampleStyle "Heading1")
       {| fontSize := Some (ThemeSpec.title_font_size theme);
          textColor := Some (HexColor (ColorPalette.primary colors));
          spaceAfter := Some (ps * 5)%Q;
          spaceBefore := None;
          alignment := Some TA_CENTER;
          fontName := Some (FontPalette.heading fonts);
          leftIndent := None; rightIndent := None |};
     st_subtitle := DerivedStyle "Subtitle" (SampleStyle "Heading2")
       {| fontSize := Some (ThemeSpec.subtitle_font_size theme);
          textColor := Some (HexColor (ColorPalette.secondary colors));
          spaceAfter := Some (ps * 3)%Q;
          spaceBefore := None;
          alignment := Some TA_CENTER;
          fontName := Some (FontPalette.body fonts);
          leftIndent := None; rightIndent := None |};
     st_h1 := DerivedStyle "H1" (SampleStyle "Heading1")
       {| fontSize := Some (ThemeSpec.h1_font_size theme);
          textColor := Some (HexColor (ColorPalette.primary colors));
          spaceAfter := Some (ps * 2)%Q;
          spaceBefore := Some (ps * 2)%Q;
          alignment := None;
          fontName := Some (FontPalette.heading fonts);
          leftIndent := None; rightIndent := None |};
     st_h2 := DerivedStyle "H2" (SampleStyle "Heading2")
       {| fontSize := Some (ThemeSpec.h2_font_size theme);
          textColor := Some (HexColor (ColorPalette.secondary colors));
          spaceAfter := Some ps;
          spaceBefore := Some ps;
          alignment := None;
          fontName := Some (FontPalette.heading fonts);
          leftIndent := None; rightIndent := None |};
     st_h3 := DerivedStyle "H3" (SampleStyle "Heading3")
       {| fontSize := Some (ThemeSpec.h3_font_size theme);
          textColor := Some (HexColor (ColorPalette.text colors));
          spaceAfter := Some (ps * (8 # 10))%Q;
          spaceBefore := Some (ps * (8 # 10))%Q;
          alignment := None;
          fontName := Some (FontPalette.heading fonts);
          leftIndent := None; rightIndent := None |};
     st_body := DerivedStyle "Body" (SampleStyle "BodyText")
       {| fontSize := Some (ThemeSpec.body_font_size theme);
          textColor := Some (HexColor (ColorPalette.text colors));
          spaceAfter := Some ps;
          spaceBefore := None;
          alignment := Some TA_JUSTIFY;
          fontName := Some (FontPalette.body fonts);
          leftIndent := None; rightIndent := None |};
     st_bullet := DerivedStyle "Bullet" (SampleStyle "BodyText")
       {| fontSize := Some (ThemeSpec.body_font_size theme);
          textColor := Some (HexColor (ColorPalette.text colors));
          spaceAfter := Some ps;
          spaceBefore := None;
          alignment := None;
          fontName := Some (FontPalette.body fonts);
          leftIndent := Some 20; rightIndent := None |};
     st_code := DerivedStyle "Code" (SampleStyle "Code")
       {| fontSize := Some (ThemeSpec.code_font_size theme);
          textColor := Some (HexColor (ColorPalette.text colors));
          spaceAfter := Some ps;
          spaceBefore := None;
          alignment := None;
          fontName := Some (FontPalette.code fonts);
          leftIndent := Some 10; rightIndent := Some 10 |} |}.

(** ** Exceptions, the world and the generator's state *)

Inductive exn_class :=
| OSError | PermissionError | FileNotFoundError
| TimeoutExpired | AttributeError | ValueError | RuntimeError
| OtherException.

Record exn := Exn { exn_cls : exn_class; exn_msg : string }.

(** [except (OSError, PermissionError)]: [PermissionError] and
    [FileNotFoundError] are subclasses of [OSError]. *)
Definition is_OSError (e : exn) : bool :=
  match exn_cls e with
  | OSError | PermissionError | FileNotFoundError => true
  | _ => false
  end.

(** How [subprocess.run] of the diagram tool ends. *)
Inductive run_outcome :=
| Completed (returncode : Z) (stderr : string)
| RunRaises (e : exn).

Record World := {
  (** [os.getenv('OUTPUT_DIR', str(Path.home() / 'pdf-output'))] *)
  w_fallback_dir : string;
  (** [datetime.now().strftime("%Y%m%d_%H%M%S")] *)
  w_timestamp : string;
  (** [Path.mkdir(parents=True, exist_ok=True)] of a directory: the
      exception it raises, if any. *)
  w_mkdir : string -> option exn;
  (** [Path.touch()] of a file: the exception it raises, if any. *)
  w_touch : string -> option exn;
  (** [os.unlink] / [Path.unlink] of an existing file: the exception it
      raises, if any. *)
  w_unlink : string -> option exn;
  (** [os.path.splitext(urlparse(url).path)[1]] *)
  w_url_ext : string -> string;
  (** [urlopen(req, timeout=30)] and the copy of the body: the exception
      raised, if any. *)
  w_fetch : string -> option exn;
  (** [subprocess.run(['npx', ..., 'mmdc', ...], timeout=30)] on a diagram
      source. *)
  w_mmdc : string -> run_outcome;
  (** [Image(path, width, height)]: the exception raised, if any. *)
  w_image : string -> option exn;
  (** [doc.build(story)]: the exception raised, if any. *)
  w_build : string -> list Flowable -> option exn }.

Inductive LogLevel := WARNING | ERROR.

Record State := {
  (** [self.story] *)
  story : list Flowable;
  (** [self.downloaded_images] *)
  downloaded_images : list string;
  (** the files and the directories that exist *)
  files : gset string;
  dirs : gset string;
  (** the number of temporary files created so far *)
  tmp_count : nat;
  (** the records logged at level warning or error (records at info and
      debug are left out of the model) *)
  log : list (LogLevel * string) }.

(** [PDFGenerator()] in a file system with the given files and
    directories. *)
Definition init_State (fs ds : gset string) : State :=
  {| story := []; downloaded_images := []; files := fs; dirs := ds;
     tmp_count := 0; log := [] |}.

(** ** The state-and-exception monad *)

Definition M (A : Type) : Type := State -> (exn + A) * State.

Definition ret {A} (a : A) : M A := fun s => (inr a, s).

Definition bind {A B} (m : M A) (k : A -> M B) : M B :=
  fun s =>
    match m s with
    | (inr a, s') => k a s'
    | (inl e, s') => (inl e, s')
    end.

Definition raise {A} (e : exn) : M A := fun s => (inl e, s).

(** [try: body except <classes> as e: handler e] *)
Definition try_except {A} (body : M A) (handles : exn -> bool)
    (handler : exn -> M A) : M A :=
  fun s =>
    match body s with
    | (inl e, s') => if handles e then handler e s' else (inl e, s')
    | r => r
    end.

Declare Scope M_scope.
Delimit Scope M_scope with M.
Notation "x <- m ;; k" := (bind m (fun x => k))
  (at level 100, m at next level, k at level 200, only parsing,
   right associativity) : M_scope.
Notation "m ;; k" := (bind m (fun _ => k))
  (at level 100, k at level 200, only parsing, right associativity) : M_scope.
Local Open Scope M_scope.

(** [for x in l: f x] *)
Fixpoint for_ {A} (l : list A) (f : A -> M unit) : M unit :=
  match l with
  | [] => ret tt
  | x :: rest => f x ;; for_ rest f
  end.

(** [if o: k o] for an optional string. *)
Definition when_str (o : option string) (k : string -> M unit) : M unit :=
  match o with
  | Some s => if non_empty s then k s else ret tt
  | None => ret tt
  end.

(** [if o: k o] for an optional list. *)
Definition when_list {A} (o : option (list A)) (k : list A -> M unit)
  : M unit :=
  match o with
  | Some (x :: l) => k (x :: l)
  | _ => ret tt
  end.

(** *** Primitive actions on the state *)

(** [self.story.append(f)] *)
Definition append (f : Flowable) : M unit :=
  fun s => (inr tt,
            {| story := story s ++ [f];
               downloaded_images := downloaded_images s;
               files := files s; dirs := dirs s;
               tmp_count := tmp_count s; log := log s |}).

(** [logger.warning(msg)], [logger.error(msg)] *)
Definition logger (lvl : LogLevel) (msg : string) : M unit :=
  fun s => (inr tt,
            {| story := story s;
               downloaded_images := downloaded_images s;
               files := files s; dirs := dirs s;
               tmp_count := tmp_count s; log := log s ++ [(lvl, msg)] |}).

(** [self.downloaded_images.append(p)] *)
Definition track (p : string) : M unit :=
  fun s => (inr tt,
            {| story := story s;
               downloaded_images := downloaded_images s ++ [p];
               files := files s; dirs := dirs s;
               tmp_count := tmp_count s; log := log s |}).

(** [self.downloaded_images.clear()] *)
Definition clear_tracked : M unit :=
  fun s => (inr tt,
            {| story := story s;
               downloaded_images := [];
               files := files s; dirs := dirs s;
               tmp_count := tmp_count s; log := log s |}).

(** [self.story = []] *)
Definition reset_story : M unit :=
  fun s => (inr tt,
            {| story := [];
               downloaded_images := downloaded_images s;
               files := files s; dirs := dirs s;
               tmp_count := tmp_count s; log := log s |}).

Definition get_story : M (list Flowable) := fun s => (inr (story s), s).

Definition get_tracked : M (list string) :=
  fun s => (inr (downloaded_images s), s).

Definition set_files (fs : gset string) (s : State) : State :=
  {| story := story s; downloaded_images := downloaded_images s;
     files := fs; dirs := dirs s;
     tmp_count := tmp_count s; log := log s |}.

(** [os.path.exists(p)], [Path(p).exists()] *)
Definition path_exists (p : string) : M bool :=
  fun s => (inr (bool_decide (p ∈ files s) || bool_decide (p ∈ dirs s)), s).

Definition str_of_exn (e : exn) : string := exn_msg e.

Definition tmp_name (n : nat) (suffix : string) : string :=
  "/tmp/tmp" +:+ pretty n +:+ suffix.

(** [tempfile.NamedTemporaryFile(delete=False, suffix=suffix)], closed:
    a new file, and its name. *)
Definition NamedTemporaryFile (suffix : string) : M string :=
  fun s =>
    let name := tmp_name (tmp_count s) suffix in
    (inr name,
     {| story := story s; downloaded_images := downloaded_images s;
        files := files s ∪ {[ name ]}; dirs := dirs s;
        tmp_count := S (tmp_count s); log := log s |}).

Section Generator.
Context (w : World) (theme : ThemeSpec.t).

Definition styles : StyleTable := _setup_styles theme.

(** [os.unlink(p)] *)
Definition unlink (p : string) : M unit :=
  fun s =>
    match w_unlink w p with
    | Some e => (inl e, s)
    | None =>
        if bool_decide (p ∈ files s)
        then (inr tt, set_files (files s ∖ {[ p ]}) s)
        else (inl (Exn FileNotFoundError p), s)
    end.

(** [Path(p).mkdir(parents=True, exist_ok=True)] *)
Definition mkdir (p : string) : M unit :=
  fun s =>
    match w_mkdir w p with
    | Some e => (inl e, s)
    | None =>
        (inr tt,
         {| story := story s; downloaded_images := downloaded_images s;
            files := files s; dirs := dirs s ∪ {[ p ]};
            tmp_count := tmp_count s; log := log s |})
    end.

(** [Path(p).touch()] *)
Definition touch (p : string) : M unit :=
  fun s =>
    match w_touch w p with
    | Some e => (inl e, s)
    | None => (inr tt, set_files (files s ∪ {[ p ]}) s)
    end.

(** [Paragraph(text, style)] where the source passes an optional
    field unguarded. *)
Definition mk_Paragraph (text : option string) (style : ParagraphStyle)
  : M Flowable :=
  match text with
  | Some s => ret (Paragraph s style)
  | None =>
      raise (Exn AttributeError
               "'NoneType' object has no attribute 'split'")
  end.

(** [Image(path, width=4 * inch, height=3 * inch)] *)
Definition mk_Image (path : string) : M Flowable :=
  match w_image w path with
  | Some e => raise e
  | None => ret (Image path (4 * inch)%Q (3 * inch)%Q)
  end.

(** [PDFGenerator._is_url] *)
Definition _is_url (path : string) : bool :=
  startswith "http://" path || startswith "https://" path.

(** [PDFGenerator._download_image] *)
Definition _download_image (url : string) : M (option string) :=
  try_except
    (let ext := let e := w_url_ext w url in
                if non_empty e then e else ".png" in
     temp_path <- NamedTemporaryFile ext ;;
     (match w_fetch w url with
      | Some e => raise e
      | None => ret tt
      end) ;;
     track temp_path ;;
     ret (Some temp_path))
    (fun _ => true)
    (fun e =>
       logger ERROR ("Failed to download image from " +:+ url +:+ ": "
                     +:+ str_of_exn e) ;;
       ret None).

Definition caption_style : ParagraphStyle :=
  DerivedStyle "Caption" (st_body styles)
    {| fontSize := Some 9;
       textColor := Some (HexColor "#666666");
       spaceAfter := None; spaceBefore := None;
       alignment := Some TA_CENTER;
       fontName := None; leftIndent := None; rightIndent := None |}.

(** The part of [_add_image] after the path is settled
    (lines 623-640). *)
Definition embed_image (image_path actual_path : string)
    (caption : option string) : M unit :=
  ex <- path_exists actual_path ;;
  if ex then
    (img <- mk_Image actual_path ;;
     append img ;;
     when_str caption (fun c =>
       append (Spacer 1 ((1 # 10) * inch)%Q) ;;
       append (Paragraph c caption_style)))
  else
    (logger WARNING ("Image not found: " +:+ actual_path) ;;
     append (Paragraph ("[Image not found: " +:+ image_path +:+ "]")
               (st_body styles))).

(** [PDFGenerator._add_image] *)
Definition _add_image (image_path : string) (caption : option string)
  : M unit :=
  try_except
    (if _is_url image_path then
       (downloaded_path <- _download_image image_path ;;
        if truthy downloaded_path then
          embed_image image_path (default image_path downloaded_path)
            caption
        else
          (logger ERROR ("Failed to download image from URL: "
                         +:+ image_path) ;;
           append (Paragraph ("[Failed to download image from: "
                              +:+ image_path +:+ "]") (st_body styles))))
     else embed_image image_path image_path caption)
    (fun _ => true)
    (fun e =>
       logger ERROR ("Error adding image " +:+ image_path +:+ ": "
                     +:+ str_of_exn e) ;;
       append (Paragraph ("[Error loading image: " +:+ str_of_exn e
                          +:+ "]") (st_body styles))).

(** [PDFGenerator._render_mermaid_to_png] *)
Definition _render_mermaid_to_png (mermaid_code : string)
  : M (option string) :=
  try_except
    (temp_input <- NamedTemporaryFile ".mmd" ;;
     temp_output_path <- NamedTemporaryFile ".png" ;;
     match w_mmdc w mermaid_code with
     | RunRaises e => raise e
     | Completed returncode stderr =>
         unlink temp_input ;;
         if bool_decide (returncode ≠ 0) then
           (logger ERROR ("mmdc failed with exit code "
                          +:+ pretty returncode) ;;
            logger ERROR ("stderr: " +:+ stderr) ;;
            ex <- path_exists temp_output_path ;;
            (if ex then unlink temp_output_path else ret tt) ;;
            ret None)
         else
           (track temp_output_path ;;
            ret (Some temp_output_path))
     end)
    (fun _ => true)
    (fun e =>
       (match exn_cls e with
        | TimeoutExpired =>
            logger ERROR "mmdc command timed out after 30 seconds"
        | FileNotFoundError =>
            logger ERROR ("mmdc not found. Please install: "
                          +:+ "npm install -g @mermaid-js/mermaid-cli")
        | _ =>
            logger ERROR ("Failed to render Mermaid diagram: "
                          +:+ str_of_exn e)
        end) ;;
       ret None).

(** [PDFGenerator._cleanup_downloaded_images] *)
Definition _cleanup_downloaded_images : M unit :=
  tracked <- get_tracked ;;
  for_ tracked (fun temp_path =>
    try_except
      (ex <- path_exists temp_path ;;
       if ex then unlink temp_path else ret tt)
      (fun _ => true)
      (fun e =>
         logger WARNING ("Failed to clean up temporary image "
                         +:+ temp_path +:+ ": " +:+ str_of_exn e))) ;;
  clear_tracked.

(** [code.split('\n')] *)
Fixpoint split_on (c : Ascii.ascii) (s : string) : list string :=
  match s with
  | EmptyString => [EmptyString]
  | String a s' =>
      if decide (a = c) then EmptyString :: split_on c s'
      else match split_on c s' with
           | x :: r => String a x :: r
           | [] => [String a EmptyString]
           end
  end.

(** [f"{n:4d}"] *)
Definition fmt_4d (n : nat) : string :=
  let d := pretty n in
  String.concat EmptyString
    (replicate (4 - String.length d)%nat " ") +:+ d.

(** [PDFGenerator._add_code_block] *)
Definition _add_code_block (code : string) (language : option string)
    (line_numbers : bool) : M unit :=
  let code :=
    if line_numbers then
      join newline
        (imap (fun i line => fmt_4d (i + 1) +:+ "  " +:+ line)
              (split_on (Ascii.ascii_of_nat 10) code))
    else code in
  append (Preformatted code (st_code styles) 100) ;;
  append (Spacer 1 ((2 # 10) * inch)%Q).

(** [PDFGenerator._add_table] *)
Definition _add_table (data : list (list string))
    (headers : option (list string)) : M unit :=
  let table_data :=
    match headers with
    | Some (h :: hs) => (h :: hs) :: data
    | _ => data
    end in
  append (Table table_data
    [ BACKGROUND (0, 0) (-1, 0)
        (HexColor (ColorPalette.primary (ThemeSpec.colors theme)));
      TEXTCOLOR (0, 0) (-1, 0) whitesmoke;
      ALIGN (0, 0) (-1, -1) "LEFT";
      FONTNAME (0, 0) (-1, 0)
        (FontPalette.heading (ThemeSpec.fonts theme));
      FONTSIZE (0, 0) (-1, 0) (ThemeSpec.body_font_size theme);
      BOTTOMPADDING (0, 0) (-1, 0) 12;
      BACKGROUND (0, 1) (-1, -1) beige;
      GRID (0, 0) (-1, -1) 1 black;
      FONTSIZE (0, 1) (-1, -1) (ThemeSpec.body_font_size theme - 1) ]) ;;
  append (Spacer 1 ((2 # 10) * inch)%Q).

(** [f"• {x}"] *)
Definition bullet_text (x : string) : string :=
  bullet_glyph +:+ " " +:+ x.

(** [PDFGenerator._add_content_item] *)
Definition _add_content_item (item : ContentItem.t) : M unit :=
  if decide (ContentItem.type item = "text") then
    when_str (ContentItem.text item) (fun t =>
      append (Paragraph t (st_body styles)))
  else if decide (ContentItem.type item = "bullet") then
    when_list (ContentItem.items item) (fun l =>
      for_ l (fun bullet =>
        append (Paragraph (bullet_text bullet) (st_bullet styles))))
  else if decide (ContentItem.type item = "image") then
    when_str (py_or (ContentItem.image_path item)
                    (ContentItem.image_url item))
      (fun p => _add_image p (ContentItem.caption item))
  else if decide (ContentItem.type item = "code") then
    when_str (ContentItem.code item) (fun c =>
      _add_code_block c (ContentItem.language item) false)
  else if decide (ContentItem.type item = "table") then
    when_list (ContentItem.table_data item) (fun d =>
      _add_table d (ContentItem.table_headers item))
  else ret tt.

(** [PDFGenerator._add_title_page] *)
Definition _add_title_page (page : PageSpec.t) : M unit :=
  append (Spacer 1 (2 * inch)%Q) ;;
  p <- mk_Paragraph (PageSpec.title page) (st_title styles) ;;
  append p ;;
  when_str (PageSpec.subtitle page) (fun s =>
    append (Paragraph s (st_subtitle styles)) ;;
    append (Spacer 1 ((3 # 10) * inch)%Q)) ;;
  when_str (PageSpec.author page) (fun s =>
    append (Paragraph s (st_body styles))) ;;
  when_str (PageSpec.date page) (fun s =>
    append (Paragraph s (st_body styles))) ;;
  when_str (PageSpec.additional_info page) (fun s =>
    append (Spacer 1 ((5 # 10) * inch)%Q) ;;
    append (Paragraph s (st_body styles))) ;;
  append PageBreak.

(** [PDFGenerator._add_toc_page] *)
Definition _add_toc_page (page : PageSpec.t) : M unit :=
  append (Paragraph (or_default (PageSpec.title page) "Table of Contents")
            (st_h1 styles)) ;;
  append (Spacer 1 ((2 # 10) * inch)%Q) ;;
  when_list (PageSpec.entries page) (fun l =>
    for_ l (fun entry => append (Paragraph entry (st_bullet styles)))) ;;
  append PageBreak.

(** [PDFGenerator._add_section_page] *)
Definition _add_section_page (page : PageSpec.t) : M unit :=
  append (Spacer 1 ((25 # 10) * inch)%Q) ;;
  p <- mk_Paragraph (PageSpec.title page) (st_title styles) ;;
  append p ;;
  when_str (PageSpec.subtitle page) (fun s =>
    append (Paragraph s (st_subtitle styles))) ;;
  append PageBreak.

(** The two lines every page with a heading starts with:
    [Paragraph(page.title, self.styles['h1'])] and a spacer. *)
Definition heading (page : PageSpec.t) : M unit :=
  p <- mk_Paragraph (PageSpec.title page) (st_h1 styles) ;;
  append p ;;
  append (Spacer 1 ((2 # 10) * inch)%Q).

(** [PDFGenerator._add_content_page] *)
Definition _add_content_page (page : PageSpec.t) : M unit :=
  heading page ;;
  when_list (PageSpec.content page) (fun l =>
    for_ l _add_content_item) ;;
  append PageBreak.

(** [PDFGenerator._add_code_page] *)
Definition _add_code_page (page : PageSpec.t) : M unit :=
  heading page ;;
  when_str (PageSpec.code page) (fun c =>
    _add_code_block c (PageSpec.language page)
      (PageSpec.line_numbers page)) ;;
  append PageBreak.

(** The description block of the diagram and mermaid pages
    (lines 419-426 and 469-476). *)
Definition description_bullets (d : option Description) : M unit :=
  if truthy_desc d then
    (append (Spacer 1 ((2 # 10) * inch)%Q) ;;
     match d with
     | Some (DescList l) =>
         for_ l (fun desc =>
           append (Paragraph (bullet_text desc) (st_bullet styles)))
     | Some (DescStr s) => append (Paragraph s (st_body styles))
     | None => ret tt
     end)
  else ret tt.

(** [PDFGenerator._add_diagram_page] *)
Definition _add_diagram_page (page : PageSpec.t) : M unit :=
  heading page ;;
  when_str (py_or (PageSpec.diagram_path page) (PageSpec.diagram_url page))
    (fun image_path => _add_image image_path (PageSpec.caption page)) ;;
  description_bullets (PageSpec.description page) ;;
  append PageBreak.

(** [PDFGenerator._add_image_page] *)
Definition _add_image_page (page : PageSpec.t) : M unit :=
  heading page ;;
  when_str (py_or (PageSpec.image_path page) (PageSpec.image_url page))
    (fun image_path => _add_image image_path (PageSpec.caption page)) ;;
  (if truthy_desc (PageSpec.description page) then
     (append (Spacer 1 ((2 # 10) * inch)%Q) ;;
      let desc_text :=
        match PageSpec.description page with
        | Some (DescStr s) => s
        | Some (DescList l) => join newline l
        | None => EmptyString
        end in
      append (Paragraph desc_text (st_body styles)))
   else ret tt) ;;
  append PageBreak.

Definition mermaid_error_msg : string :=
  "[Failed to render Mermaid diagram. Please ensure "
  +:+ "@mermaid-js/mermaid-cli is installed]".

(** [PDFGenerator._add_mermaid_page] *)
Definition _add_mermaid_page (page : PageSpec.t) : M unit :=
  heading page ;;
  when_str (PageSpec.mermaid_code page) (fun code =>
    png_path <- _render_mermaid_to_png code ;;
    if truthy png_path then
      _add_image (default EmptyString png_path) (PageSpec.caption page)
    else
      (append (Paragraph mermaid_error_msg (st_body styles)) ;;
       logger ERROR "Failed to render Mermaid diagram")) ;;
  description_bullets (PageSpec.description page) ;;
  append PageBreak.

(** [PDFGenerator._add_summary_page] *)
Definition _add_summary_page (page : PageSpec.t) : M unit :=
  append (Paragraph (or_default (PageSpec.title page) "Summary")
            (st_h1 styles)) ;;
  append (Spacer 1 ((2 # 10) * inch)%Q) ;;
  when_list (PageSpec.key_points page) (fun l =>
    for_ l (fun point =>
      append (Paragraph (bullet_text point) (st_bullet styles)))) ;;
  when_str (PageSpec.conclusion page) (fun c =>
    append (Spacer 1 ((3 # 10) * inch)%Q) ;;
    append (Paragraph c (st_body styles))) ;;
  append PageBreak.

(** One turn of the loop of [_add_references_page]. *)
Definition reference_entry (style : string) (i : nat) (ref : string)
  : Flowable :=
  if decide (style = "numbered") then
    Paragraph (pretty i +:+ ". " +:+ ref) (st_body styles)
  else if decide (style = "bulleted") then
    Paragraph (bullet_text ref) (st_bullet styles)
  else Paragraph ref (st_body styles).

(** [PDFGenerator._add_references_page] *)
Definition _add_references_page (page : PageSpec.t) : M unit :=
  append (Paragraph (or_default (PageSpec.title page) "References")
            (st_h1 styles)) ;;
  append (Spacer 1 ((2 # 10) * inch)%Q) ;;
  when_list (PageSpec.references page) (fun l =>
    for_ (imap (fun i ref => (S i, ref)) l) (fun '(i, ref) =>
      append (reference_entry (PageSpec.style page) i ref))) ;;
  append PageBreak.

(** [PDFGenerator._generate_page].  The final [else] of the source
    (an unknown page type) has no page type left to reach it. *)
Definition _generate_page (page : PageSpec.t) : M unit :=
  match PageSpec.page_type page with
  | TITLE => _add_title_page page
  | TOC => _add_toc_page page
  | SECTION => _add_section_page page
  | CONTENT => _add_content_page page
  | CODE => _add_code_page page
  | DIAGRAM => _add_diagram_page page
  | IMAGE => _add_image_page page
  | MERMAID => _add_mermaid_page page
  | SUMMARY => _add_summary_page page
  | REFERENCES => _add_references_page page
  end.

(** The loop over the pages (lines 128-136): the pages generated so
    far are counted; a page that raises is logged and re-raised. *)
Fixpoint generate_pages (pages : list PageSpec.t) (pages_generated : nat)
  : M nat :=
  match pages with
  | [] => ret pages_generated
  | page :: rest =>
      try_except (_generate_page page) (fun _ => true)
        (fun e =>
           logger ERROR ("Error generating page "
                         +:+ pretty (pages_generated + 1)%nat +:+ ": "
                         +:+ str_of_exn e) ;;
           raise e) ;;
      generate_pages rest (pages_generated + 1)%nat
  end.
End Generator.

(** ** [PDFGenerator.generate_pdf] *)

Definition in_range (lo hi : nat) (c : Ascii.ascii) : bool :=
  let n := Ascii.nat_of_ascii c in
  (Nat.leb lo n && Nat.leb n hi)%bool.

Definition chr_space : Ascii.ascii := Ascii.ascii_of_nat 32.
Definition chr_hyphen : Ascii.ascii := Ascii.ascii_of_nat 45.
Definition chr_underscore : Ascii.ascii := Ascii.ascii_of_nat 95.

(** [c.isalnum()] *)
Definition isalnum (c : Ascii.ascii) : bool :=
  in_range 48 57 c || in_range 65 90 c || in_range 97 122 c.

(** [c.lower()] *)
Definition lower_char (c : Ascii.ascii) : Ascii.ascii :=
  if in_range 65 90 c
  then Ascii.ascii_of_nat (Ascii.nat_of_ascii c + 32)
  else c.

Fixpoint string_map (f : Ascii.ascii -> Ascii.ascii) (s : string) : string :=
  match s with
  | EmptyString => EmptyString
  | String c s' => String (f c) (string_map f s')
  end.

(** [c if c.isalnum() or c in (' ', '-', '_') else '_'] *)
Definition safe_char (c : Ascii.ascii) : Ascii.ascii :=
  if isalnum c
     || bool_decide (c = chr_space)
     || bool_decide (c = chr_hyphen)
     || bool_decide (c = chr_underscore)
  then c else chr_underscore.

(** [s.replace(' ', '_')], character by character. *)
Definition space_to_underscore (c : Ascii.ascii) : Ascii.ascii :=
  if bool_decide (c = chr_space) then chr_underscore else c.

(** Lines 107-108: the title made safe for a file name. *)
Definition safe_title (title : string) : string :=
  string_map lower_char
    (string_map space_to_underscore (string_map safe_char title)).

(** Lines 102-110. *)
Definition output_filename (w : World) (doc_spec : DocumentSpec.t) : string :=
  if truthy (OutputSpec.filename (DocumentSpec.output doc_spec)) then
    default EmptyString (OutputSpec.filename (DocumentSpec.output doc_spec))
  else
    safe_title (DocumentSpec.title doc_spec) +:+ "_" +:+ w_timestamp w
    +:+ ".pdf".

(** [Path(d) / name] *)
Definition path_join (d name : string) : string := d +:+ "/" +:+ name.

Definition fallback_note (fallback_dir requested_dir : string) : string :=
  "Note: Saved to " +:+ fallback_dir +:+ " (requested directory "
  +:+ requested_dir +:+ " was not accessible)".

(** Lines 69-79, the body of the first [try]: create the requested
    directory if it is not there, then probe it by creating and removing
    a sentinel file. *)
Definition use_requested_dir (w : World) (requested_dir : string)
  : M (string * option string) :=
  ex <- path_exists requested_dir ;;
  (if ex then ret tt else mkdir w requested_dir) ;;
  let test_file := path_join requested_dir ".write_test" in
  touch w test_file ;;
  unlink w test_file ;;
  ret (requested_dir, None).

(** Lines 91-96, the body of the second [try]: create the fallback
    directory if it is not there. *)
Definition use_fallback_dir (w : World) (requested_dir : string)
  : M (string * option string) :=
  let fallback_dir := w_fallback_dir w in
  ex <- path_exists fallback_dir ;;
  (if ex then ret tt else mkdir w fallback_dir) ;;
  ret (fallback_dir, Some (fallback_note fallback_dir requested_dir)).

Definition cannot_use_requested (requested_dir : string) (e : exn) : string :=
  "Cannot use requested directory " +:+ requested_dir +:+ ": "
  +:+ str_of_exn e.

(** Lines 62-100: the directory the file goes to, and the note to attach
    when it is not the requested one. *)
Definition resolve_output_dir (w : World) (requested_dir : string)
  : M (string * option string) :=
  try_except (use_requested_dir w requested_dir) is_OSError
    (fun e =>
       logger WARNING (cannot_use_requested requested_dir e) ;;
       let fallback_dir := w_fallback_dir w in
       try_except (use_fallback_dir w requested_dir) is_OSError
         (fun e2 =>
            logger ERROR ("Cannot use fallback directory " +:+ fallback_dir
                          +:+ ": " +:+ str_of_exn e2) ;;
            raise (Exn RuntimeError
                     ("Cannot write to requested directory '"
                      +:+ requested_dir +:+ "' or fallback directory '"
                      +:+ fallback_dir
                      +:+ "'. Please check permissions and configuration.")))).

(** [doc.build(self.story)]: the backend writes the file, or raises. *)
Definition build (w : World) (output_path : string) (fl : list Flowable)
  : M unit :=
  fun s =>
    match w_build w output_path fl with
    | Some e => (inl e, s)
    | None => (inr tt, set_files (files s ∪ {[ output_path ]}) s)
    end.

(** The dict [generate_pdf] returns; the key ["message"] is optional. *)
Record GenResult := {
  ok : bool;
  output : string;
  pages_generated : nat;
  filename : string;
  message : option string }.

Definition generate_pdf (w : World) (doc_spec : DocumentSpec.t)
  : M GenResult :=
  let theme := DocumentSpec.theme doc_spec in
  dm <- resolve_output_dir w
          (OutputSpec.directory (DocumentSpec.output doc_spec)) ;;
  let output_dir := fst dm in
  let directory_message := snd dm in
  let filename := output_filename w doc_spec in
  let output_path := path_join output_dir filename in
  reset_story ;;
  pages_generated <- generate_pages w theme (DocumentSpec.pages doc_spec) 0 ;;
  fl <- get_story ;;
  build w output_path fl ;;
  _cleanup_downloaded_images w ;;
  when_str directory_message (fun m => logger WARNING m) ;;
  ret {| ok := true;
         output := output_path;
         pages_generated := pages_generated;
         filename := filename;
         message := if truthy directory_message then directory_message
                    else None |}.

(** ** The specification's words, for comparison *)

(** "keeping alphanumerics, spaces, hyphens, and underscores": the
    characters of the title that are kept. *)
Definition kept_char (c : Ascii.ascii) : bool :=
  isalnum c
  || bool_decide (c = chr_space)
  || bool_decide (c = chr_hyphen)
  || bool_decide (c = chr_underscore).

Fixpoint string_filter (f : Ascii.ascii -> bool) (s : string) : string :=
  match s with
  | EmptyString => EmptyString
  | String c s' =>
      if f c then String c (string_filter f s') else string_filter f s'
  end.

(** The file name as the specification derives it from the title: keep
    the four classes of characters, turn spaces into underscores,
    lower-case, append underscore, timestamp and extension. *)
Definition spec_derived_filename (title timestamp : string) : string :=
  string_map lower_char
    (string_map space_to_underscore (string_filter kept_char title))
  +:+ "_" +:+ timestamp +:+ ".pdf".

(** The field the specification sends the [image] shorthand to. *)
Definition spec_image_target (diagram_kind scheme : bool) : string :=
  match diagram_kind, scheme with
  | true, true => "diagram_url"
  | true, false => "diagram_path"
  | false, true => "image_url"
  | false, false => "image_path"
  end.

(** * Definitions for the properties *)

(** The state with [g] appended to the story. *)
Definition add_story (g : list Flowable) (s : State) : State :=
  {| story := story s ++ g;
     downloaded_images := downloaded_images s;
     files := files s; dirs := dirs s;
     tmp_count := tmp_count s; log := log s |}.

(** [emit g]: append the flowables of [g], in order. *)
Definition emit (g : list Flowable) : M unit :=
  fun s => (inr tt, add_story g s).

Definition no_break (g : list Flowable) : Prop :=
  Forall (fun f => is_PageBreak f = false) g.

(** [quiet m]: whatever [m] does, returning or raising, the story only
    grows, and by no page break. *)
Definition quiet {A} (m : M A) : Prop :=
  forall s, exists g, story (snd (m s)) = story s ++ g /\ no_break g.

(** [total m]: [m] returns. *)
Definition total {A} (m : M A) : Prop :=
  forall s, exists a s', m s = (inr a, s').

(** [one_break m]: when [m] returns, it has appended a group of
    flowables that ends with the only page break in it. *)
Definition one_break (m : M unit) : Prop :=
  forall s s', m s = (inr tt, s') ->
    exists g, story s' = story s ++ g ++ [PageBreak] /\ no_break g.

(** The page kinds whose composer hands [page.title] to [Paragraph]
    as it is. *)
Definition needs_title (k : PageType) : bool :=
  match k with
  | TOC | SUMMARY | REFERENCES => false
  | _ => true
  end.

(** A page that has its title when its kind needs one. *)
Definition titled (page : PageSpec.t) : Prop :=
  needs_title (PageSpec.page_type page) = true ->
  is_Some (PageSpec.title page).

(** [composed w theme pages groups s s']: from state [s] the pages
    compose one after the other, page [i] appending the group [i] of
    flowables to the story, and the last one leaves state [s']. *)
Fixpoint composed (w : World) (theme : ThemeSpec.t)
    (pages : list PageSpec.t) (groups : list (list Flowable))
    (s s' : State) : Prop :=
  match pages, groups with
  | [], [] => s' = s
  | page :: pages', g :: groups' =>
      exists s1,
        _generate_page w theme page s = (inr tt, s1) /\
        story s1 = story s ++ g /\
        composed w theme pages' groups' s1 s'
  | _, _ => False
  end.

(** A group of flowables that ends with its only page break. *)
Definition page_group (g : list Flowable) : Prop :=
  exists g0, g = g0 ++ [PageBreak] /\ no_break g0.

(** A world in which nothing fails. *)
Definition sample_World : World :=
  {| w_fallback_dir := "/home/user/pdf-output";
     w_timestamp := "20240101_120000";
     w_mkdir := fun _ => None;
     w_touch := fun _ => None;
     w_unlink := fun _ => None;
     w_url_ext := fun _ => ".png";
     w_fetch := fun _ => None;
     w_mmdc := fun _ => Completed 0 EmptyString;
     w_image := fun _ => None;
     w_build := fun _ _ => None |}.

Definition with_title (t : string) (p : PageSpec.t) : PageSpec.t :=
  PageSpec.mk (PageSpec.page_type p) (Some t) (PageSpec.subtitle p)
    (PageSpec.author p) (PageSpec.date p) (PageSpec.additional_info p)
    (PageSpec.entries p) (PageSpec.content p) (PageSpec.code p)
    (PageSpec.language p) (PageSpec.line_numbers p) (PageSpec.image_path p)
    (PageSpec.image_url p) (PageSpec.diagram_path p) (PageSpec.diagram_url p)
    (PageSpec.caption p) (PageSpec.description p) (PageSpec.mermaid_code p)
    (PageSpec.key_points p) (PageSpec.conclusion p) (PageSpec.references p)
    (PageSpec.style p).

Definition with_content (c : list ContentItem.t) (p : PageSpec.t)
  : PageSpec.t :=
  PageSpec.mk (PageSpec.page_type p) (PageSpec.title p) (PageSpec.subtitle p)
    (PageSpec.author p) (PageSpec.date p) (PageSpec.additional_info p)
    (PageSpec.entries p) (Some c) (PageSpec.code p)
    (PageSpec.language p) (PageSpec.line_numbers p) (PageSpec.image_path p)
    (PageSpec.image_url p) (PageSpec.diagram_path p) (PageSpec.diagram_url p)
    (PageSpec.caption p) (PageSpec.description p) (PageSpec.mermaid_code p)
    (PageSpec.key_points p) (PageSpec.conclusion p) (PageSpec.references p)
    (PageSpec.style p).

Definition bullet_item (l : list string) : ContentItem.t :=
  ContentItem.mk "bullet" None (Some l) None None None None None None None.

(** The scenario of the specification: a title page, and a content page
    with one bullet list of two items. *)
Definition sample_doc : DocumentSpec.t :=
  DocumentSpec.mk "T" ThemeSpec.defaults
    [ with_title "T" (PageSpec.blank TITLE);
      with_content [bullet_item ["one"; "two"]]
        (with_title "Points" (PageSpec.blank CONTENT)) ]
    (OutputSpec.mk None "/out").

(** A theme input that supplies [colors.primary] and nothing else. *)
Definition only_primary (p : string) : ThemeSpec.input :=
  ThemeSpec.mk_input
    (Some (ColorPalette.mk_input (Some p) None None None None None))
    None None None None None None None None
    None None None None None None None None None.

(** The input [i] with its [colors] group replaced. *)
Definition with_in_colors (c : option ColorPalette.input)
    (i : ThemeSpec.input) : ThemeSpec.input :=
  ThemeSpec.mk_input c (ThemeSpec.in_fonts i) (ThemeSpec.in_logo_path i)
    (ThemeSpec.in_title_font_size i) (ThemeSpec.in_subtitle_font_size i)
    (ThemeSpec.in_h1_font_size i) (ThemeSpec.in_h2_font_size i)
    (ThemeSpec.in_h3_font_size i) (ThemeSpec.in_body_font_size i)
    (ThemeSpec.in_code_font_size i) (ThemeSpec.in_line_spacing i)
    (ThemeSpec.in_paragraph_spacing i) (ThemeSpec.in_page_width i)
    (ThemeSpec.in_page_height i) (ThemeSpec.in_margin_top i)
    (ThemeSpec.in_margin_bottom i) (ThemeSpec.in_margin_left i)
    (ThemeSpec.in_margin_right i).

(** The input [i] with its [fonts] group replaced. *)
Definition with_in_fonts (f : option FontPalette.input)
    (i : ThemeSpec.input) : ThemeSpec.input :=
  ThemeSpec.mk_input (ThemeSpec.in_colors i) f (ThemeSpec.in_logo_path i)
    (ThemeSpec.in_title_font_size i) (ThemeSpec.in_subtitle_font_size i)
    (ThemeSpec.in_h1_font_size i) (ThemeSpec.in_h2_font_size i)
    (ThemeSpec.in_h3_font_size i) (ThemeSpec.in_body_font_size i)
    (ThemeSpec.in_code_font_size i) (ThemeSpec.in_line_spacing i)
    (ThemeSpec.in_paragraph_spacing i) (ThemeSpec.in_page_width i)
    (ThemeSpec.in_page_height i) (ThemeSpec.in_margin_top i)
    (ThemeSpec.in_margin_bottom i) (ThemeSpec.in_margin_left i)
    (ThemeSpec.in_margin_right i).

Definition is_str (v : value) : bool :=
  match v with VStr _ | VEnum _ => true | _ => false end.

(** The input of the specification's example: a diagram page whose
    shorthand is an https URL. *)
Definition sample_diagram_input : gmap string value :=
  <["image" := VStr "https://example.com/d.png"]>
    (<["page_type" := VStr "diagram"]> (<["title" := VStr "D"]> ∅)).

(** The flowables of the description block of a diagram or mermaid
    page. *)
Definition description_flowables (theme : ThemeSpec.t)
    (d : option Description) : list Flowable :=
  match d with
  | Some (DescList (x :: l)) =>
      Spacer 1 ((2 # 10) * inch)%Q
      :: map (fun desc => Paragraph (bullet_text desc)
                            (st_bullet (styles theme))) (x :: l)
  | Some (DescStr s) =>
      if non_empty s
      then [Spacer 1 ((2 # 10) * inch)%Q; Paragraph s (st_body (styles theme))]
      else []
  | _ => []
  end.

(** The two flowables of a heading. *)
Definition heading_flowables (theme : ThemeSpec.t) (t : string)
  : list Flowable :=
  [Paragraph t (st_h1 (styles theme)); Spacer 1 ((2 # 10) * inch)%Q].

(** The tool did not produce the picture: it exited with a code other
    than 0, or running it raised (a timeout, the tool missing, or any
    other exception). *)
Definition render_fails (o : run_outcome) : Prop :=
  match o with
  | Completed returncode _ => returncode ≠ 0
  | RunRaises _ => True
  end.

(** A world like [sample_World], in which the diagram tool exits
    with code 1. *)
Definition failing_mmdc_World : World :=
  {| w_fallback_dir := w_fallback_dir sample_World;
     w_timestamp := w_timestamp sample_World;
     w_mkdir := w_mkdir sample_World;
     w_touch := w_touch sample_World;
     w_unlink := w_unlink sample_World;
     w_url_ext := w_url_ext sample_World;
     w_fetch := w_fetch sample_World;
     w_mmdc := fun _ => Completed 1 "Parse error";
     w_image := w_image sample_World;
     w_build := w_build sample_World |}.

Definition with_mermaid_code (c : string) (p : PageSpec.t) : PageSpec.t :=
  PageSpec.mk (PageSpec.page_type p) (PageSpec.title p) (PageSpec.subtitle p)
    (PageSpec.author p) (PageSpec.date p) (PageSpec.additional_info p)
    (PageSpec.entries p) (PageSpec.content p) (PageSpec.code p)
    (PageSpec.language p) (PageSpec.line_numbers p) (PageSpec.image_path p)
    (PageSpec.image_url p) (PageSpec.diagram_path p) (PageSpec.diagram_url p)
    (PageSpec.caption p) (PageSpec.description p) (Some c)
    (PageSpec.key_points p) (PageSpec.conclusion p) (PageSpec.references p)
    (PageSpec.style p).

(** The flowables of the description block of an image page. *)
Definition description_joined_flowables (theme : ThemeSpec.t)
    (d : option Description) : list Flowable :=
  match d with
  | Some (DescList (x :: l)) =>
      [Spacer 1 ((2 # 10) * inch)%Q;
       Paragraph (join newline (x :: l)) (st_body (styles theme))]
  | Some (DescStr s) =>
      if non_empty s
      then [Spacer 1 ((2 # 10) * inch)%Q; Paragraph s (st_body (styles theme))]
      else []
  | _ => []
  end.

Definition exists_b (p : string) (s : State) : bool :=
  bool_decide (p ∈ files s) || bool_decide (p ∈ dirs s).

Definition succeeds (o : option exn) : bool :=
  match o with None => true | Some _ => false end.

(** The requested directory is there or can be created, and the
    sentinel file can be created in it and removed. *)
Definition requested_usable (w : World) (d : string) (s : State) : bool :=
  (exists_b d s || succeeds (w_mkdir w d))
  && succeeds (w_touch w (path_join d ".write_test"))
  && succeeds (w_unlink w (path_join d ".write_test")).

(** The fallback directory is there or can be created. *)
Definition fallback_creatable (w : World) (s : State) : bool :=
  exists_b (w_fallback_dir w) s || succeeds (w_mkdir w (w_fallback_dir w)).

(** What the file system calls raise is an [OSError]. *)
Definition fs_raises_OSError (w : World) : Prop :=
  forall p e,
    w_mkdir w p = Some e \/ w_touch w p = Some e \/ w_unlink w p = Some e ->
    is_OSError e = true.

(** The state in which the fallback is tried: that left by the attempt
    on the requested directory (the warning logged in between does not
    touch the file system). *)
Definition after_attempt (w : World) (d : string) (s : State) : State :=
  snd (logger WARNING
         (cannot_use_requested d
            (match fst (use_requested_dir w d s) with
             | inl e => e
             | inr _ => Exn OSError EmptyString
             end))
         (snd (use_requested_dir w d s))).

(** A world like [sample_World] in which the directory
    /mnt/user-data/outputs cannot be created. *)
Definition no_mnt_World : World :=
  {| w_fallback_dir := w_fallback_dir sample_World;
     w_timestamp := w_timestamp sample_World;
     w_mkdir := fun p =>
       if decide (p = "/mnt/user-data/outputs")
       then Some (Exn PermissionError "Permission denied")
       else None;
     w_touch := w_touch sample_World;
     w_unlink := w_unlink sample_World;
     w_url_ext := w_url_ext sample_World;
     w_fetch := w_fetch sample_World;
     w_mmdc := w_mmdc sample_World;
     w_image := w_image sample_World;
     w_build := w_build sample_World |}.

(** The document of the repository's fallback test. *)
Definition fallback_doc : DocumentSpec.t :=
  DocumentSpec.mk "Fallback Test" ThemeSpec.defaults
    [ with_title "Test Document" (PageSpec.blank TITLE) ]
    (OutputSpec.mk (Some "fallback_test.pdf") "/mnt/user-data/outputs").

(** What becomes of a character of the title. *)
Definition derived_char (c : Ascii.ascii) : Ascii.ascii :=
  if kept_char c then lower_char (space_to_underscore c) else chr_underscore.

Definition doc_titled (title : string) (fname : option string)
  : DocumentSpec.t :=
  DocumentSpec.mk title ThemeSpec.defaults
    [ with_title title (PageSpec.blank TITLE) ]
    (OutputSpec.mk fname "/out").

Definition image_url_page (t url : string) : PageSpec.t :=
  PageSpec.mk IMAGE (Some t) None None None None None None None None false
    None (Some url) None None None None None None None None "numbered".

(** A page whose image is downloaded, followed by a title page without
    a title. *)
Definition leaking_doc : DocumentSpec.t :=
  DocumentSpec.mk "Leak" ThemeSpec.defaults
    [ image_url_page "Pic" "https://example.com/a.png";
      PageSpec.blank TITLE ]
    (OutputSpec.mk None "/out").

(** A world like [sample_World] in which temporary files cannot be
    deleted. *)
Definition no_unlink_World : World :=
  {| w_fallback_dir := w_fallback_dir sample_World;
     w_timestamp := w_timestamp sample_World;
     w_mkdir := w_mkdir sample_World;
     w_touch := w_touch sample_World;
     w_unlink := fun p =>
       if startswith "/tmp/" p
       then Some (Exn PermissionError "Operation not permitted")
       else None;
     w_url_ext := w_url_ext sample_World;
     w_fetch := w_fetch sample_World;
     w_mmdc := w_mmdc sample_World;
     w_image := w_image sample_World;
     w_build := w_build sample_World |}.

(** A diagram page with both a path and a URL, and a description that
    is a sequence. *)
Definition both_refs_page : PageSpec.t :=
  PageSpec.mk DIAGRAM (Some "D") None None None None None None None None
    false None None (Some "/img/a.png") (Some "https://example.com/b.png")
    None (Some (DescList ["x"; "y"])) None None None None "numbered".

(** ** Definitions for the further properties *)

(** The warning of [_cleanup_downloaded_images] for a file it could not
    delete. *)
Definition cleanup_warning (p : string) (e : exn) : string :=
  "Failed to clean up temporary image " +:+ p +:+ ": " +:+ str_of_exn e.

(** One turn of the loop of [_cleanup_downloaded_images]
    (lines 598-603). *)
Definition cleanup_one (w : World) (temp_path : string) : M unit :=
  try_except
    (ex <- path_exists temp_path ;;
     if ex then unlink w temp_path else ret tt)
    (fun _ => true)
    (fun e => logger WARNING (cleanup_warning temp_path e)).

(** The suffix [_download_image] gives its temporary file
    (line 496). *)
Definition download_ext (w : World) (url : string) : string :=
  if non_empty (w_url_ext w url) then w_url_ext w url else ".png".

(** The state with the records [l] appended to the log. *)
Definition add_log (l : list (LogLevel * string)) (s : State) : State :=
  {| story := story s;
     downloaded_images := downloaded_images s;
     files := files s; dirs := dirs s;
     tmp_count := tmp_count s; log := log s ++ l |}.

(** The flowables of a caption: none when the caption is unset or
    empty. *)
Definition caption_flowables (theme : ThemeSpec.t) (caption : option string)
  : list Flowable :=
  match caption with
  | Some c =>
      if non_empty c
      then [Spacer 1 ((1 # 10) * inch)%Q; Paragraph c (caption_style theme)]
      else []
  | None => []
  end.

Fixpoint last_char (s : string) : option Ascii.ascii :=
  match s with
  | EmptyString => None
  | String c EmptyString => Some c
  | String _ s' => last_char s'
  end.

(** Whether a content item has what its type reads: the test each
    branch of [_add_content_item] makes; an item of another type has
    nothing to read. *)
Definition has_payload (item : ContentItem.t) : bool :=
  if decide (ContentItem.type item = "text") then
    truthy (ContentItem.text item)
  else if decide (ContentItem.type item = "bullet") then
    truthy_list (ContentItem.items item)
  else if decide (ContentItem.type item = "image") then
    truthy (py_or (ContentItem.image_path item) (ContentItem.image_url item))
  else if decide (ContentItem.type item = "code") then
    truthy (ContentItem.code item)
  else if decide (ContentItem.type item = "table") then
    truthy_list (ContentItem.table_data item)
  else false.

(** A world in which running the diagram tool times out. *)
Definition timeout_World : World :=
  {| w_fallback_dir := w_fallback_dir sample_World;
     w_timestamp := w_timestamp sample_World;
     w_mkdir := w_mkdir sample_World;
     w_touch := w_touch sample_World;
     w_unlink := w_unlink sample_World;
     w_url_ext := w_url_ext sample_World;
     w_fetch := w_fetch sample_World;
     w_mmdc := fun _ =>
       RunRaises (Exn TimeoutExpired "Command timed out after 30 seconds");
     w_image := w_image sample_World;
     w_build := w_build sample_World |}.

(** The elements of an optional list; none when it is unset. *)
Definition listed {A} (o : option (list A)) : list A := default [] o.

(** What [_add_references_page] appends for [page]. *)
Definition references_flowables (theme : ThemeSpec.t) (page : PageSpec.t)
  : list Flowable :=
  [Paragraph (or_default (PageSpec.title page) "References")
     (st_h1 (styles theme));
   Spacer 1 ((2 # 10) * inch)%Q]
  ++ imap (fun i ref => reference_entry theme (PageSpec.style page) (S i) ref)
       (listed (PageSpec.references page))
  ++ [PageBreak].

(** [steps R m]: whatever [m] does, returning or raising, the state it
    leaves is related by [R] to the state it started in. *)
Definition steps (R : relation State) {A} (m : M A) : Prop :=
  forall s, R s (snd (m s)).

(** The second state is the first with flowables appended, and nothing
    else changed. *)
Definition only_story (s s' : State) : Prop :=
  exists g, s' = add_story g s.

(** Every file on the list of temporary images is still on it. *)
Definition tracked_kept (s s' : State) : Prop :=
  downloaded_images s ⊆ downloaded_images s'.

(** A content item that makes [_add_content_item] call [_add_image]. *)
Definition shows_image (item : ContentItem.t) : bool :=
  bool_decide (ContentItem.type item = "image")
  && truthy (py_or (ContentItem.image_path item)
                   (ContentItem.image_url item)).

(** The pages whose composer can reach [_add_image] or
    [_render_mermaid_to_png]. *)
Definition reads_images (page : PageSpec.t) : bool :=
  match PageSpec.page_type page with
  | DIAGRAM | IMAGE | MERMAID => true
  | CONTENT => existsb shows_image (listed (PageSpec.content page))
  | _ => false
  end.

(** [c in s] *)
Fixpoint has_char (c : Ascii.ascii) (s : string) : bool :=
  match s with
  | EmptyString => false
  | String a s' => bool_decide (a = c) || has_char c s'
  end.

Definition chr_newline : Ascii.ascii := Ascii.ascii_of_nat 10.

(** [all(P(c) for c in s)] *)
Fixpoint string_forall (P : Ascii.ascii -> bool) (s : string) : bool :=
  match s with
  | EmptyString => true
  | String c s' => P c && string_forall P s'
  end.

(** A title of ASCII characters, on which [isalnum] and [lower_char]
    are [str.isalnum] and [str.lower]. *)
Definition ascii_only (s : string) : bool :=
  string_forall (fun c => Nat.ltb (Ascii.nat_of_ascii c) 128) s.

Definition chr_slash : Ascii.ascii := Ascii.ascii_of_nat 47.

(** A digit, a lower-case letter, a hyphen or an underscore. *)
Definition plain_char (c : Ascii.ascii) : bool :=
  in_range 48 57 c || in_range 97 122 c
  || bool_decide (c = chr_hyphen) || bool_decide (c = chr_underscore).

(** The record [generate_pdf] logs for a page that raised [e] when
    [n] pages had been generated. *)
Definition page_error (n : nat) (e : exn) : LogLevel * string :=
  (ERROR, "Error generating page " +:+ pretty (n + 1)%nat +:+ ": "
          +:+ str_of_exn e).

(** A document whose second page, a content page, has no title. *)
Definition untitled_second_doc : DocumentSpec.t :=
  DocumentSpec.mk "T" ThemeSpec.defaults
    [ with_title "T" (PageSpec.blank TITLE);
      PageSpec.blank CONTENT;
      with_title "Never reached" (PageSpec.blank SECTION) ]
    (OutputSpec.mk None "/out").

(** The state with the story replaced: what a generator that is used
    again starts from. *)
Definition with_story (fl : list Flowable) (s : State) : State :=
  {| story := fl;
     downloaded_images := downloaded_images s;
     files := files s; dirs := dirs s;
     tmp_count := tmp_count s; log := log s |}.

(** [story_blind m]: [m] neither reads nor writes the story. *)
Definition story_blind {A} (m : M A) : Prop :=
  forall fl s, m (with_story fl s) = (fst (m s), with_story fl (snd (m s))).

(** The state a generator is in after the run of [leaking_doc], which
    raised with a temporary image on disk. *)
Definition after_leak : State :=
  snd (generate_pdf sample_World leaking_doc (init_State ∅ ∅)).

(** Two themes that agree on every setting a page composer reads:
    three of the colours, the fonts, five of the font sizes and the
    paragraph spacing. *)
Definition same_look (t1 t2 : ThemeSpec.t) : Prop :=
  ColorPalette.primary (ThemeSpec.colors t1)
  = ColorPalette.primary (ThemeSpec.colors t2) /\
  ColorPalette.secondary (ThemeSpec.colors t1)
  = ColorPalette.secondary (ThemeSpec.colors t2) /\
  ColorPalette.text (ThemeSpec.colors t1)
  = ColorPalette.text (ThemeSpec.colors t2) /\
  ThemeSpec.fonts t1 = ThemeSpec.fonts t2 /\
  ThemeSpec.title_font_size t1 = ThemeSpec.title_font_size t2 /\
  ThemeSpec.subtitle_font_size t1 = ThemeSpec.subtitle_font_size t2 /\
  ThemeSpec.h1_font_size t1 = ThemeSpec.h1_font_size t2 /\
  ThemeSpec.body_font_size t1 = ThemeSpec.body_font_size t2 /\
  ThemeSpec.code_font_size t1 = ThemeSpec.code_font_size t2 /\
  ThemeSpec.paragraph_spacing t1 = ThemeSpec.paragraph_spacing t2.

(** The default theme with other values for the settings that
    [same_look] leaves out, the page geometry apart. *)
Definition restyled_theme : ThemeSpec.t :=
  ThemeSpec.model_validate
    (ThemeSpec.mk_input
       (Some (ColorPalette.mk_input None None (Some "#000000")
                (Some "#222222") None (Some "#333333")))
       None (Some "/logo.png") None None None (Some 40%Z) (Some 30%Z)
       None None (Some (2 # 1)%Q) None None None None None None None).

(** * Properties *)

(** ** Reasoning about the monad *)

Lemma bind_run {A B} (m : M A) (k : A -> M B) s a s1 :
  m s = (inr a, s1) -> bind m k s = k a s1.
Proof. intros H. unfold bind. by rewrite H. Qed.

Lemma add_story_nil s : add_story [] s = s.
Proof. destruct s. unfold add_story. simpl. by rewrite app_nil_r. Qed.

Lemma add_story_app g1 g2 s :
  add_story g2 (add_story g1 s) = add_story (g1 ++ g2) s.
Proof. unfold add_story. simpl. by rewrite app_assoc. Qed.

Lemma append_emit f : append f = emit [f].
Proof. reflexivity. Qed.

Lemma emit_run g s : emit g s = (inr tt, add_story g s).
Proof. reflexivity. Qed.

Lemma bind_emit_emit g1 g2 s :
  bind (emit g1) (fun _ => emit g2) s = emit (g1 ++ g2) s.
Proof. unfold bind, emit. simpl. by rewrite add_story_app. Qed.

Lemma for_emit {A} (f : A -> Flowable) (l : list A) s :
  for_ l (fun x => append (f x)) s = emit (map f l) s.
Proof.
  revert s. induction l as [|x l IH]; intros s; simpl.
  - unfold ret, emit. by rewrite add_story_nil.
  - unfold bind.
    change (append (f x) s) with (inr tt : exn + unit, add_story [f x] s).
    cbv beta iota. rewrite IH. unfold emit.
    by rewrite add_story_app.
Qed.

Lemma no_break_app g1 g2 : no_break g1 -> no_break g2 -> no_break (g1 ++ g2).
Proof. apply Forall_app_2. Qed.

Create HintDb quiet_db.
Create HintDb total_db.

Lemma quiet_ret {A} (a : A) : quiet (ret a).
Proof. intros s. exists []. simpl. rewrite app_nil_r. split; [done | constructor]. Qed.

Lemma quiet_raise {A} e : quiet (@raise A e).
Proof. intros s. exists []. simpl. rewrite app_nil_r. split; [done | constructor]. Qed.

Lemma quiet_bind {A B} (m : M A) (k : A -> M B) :
  quiet m -> (forall a, quiet (k a)) -> quiet (bind m k).
Proof.
  intros Hm Hk s. unfold bind.
  destruct (Hm s) as (g1 & E1 & N1).
  destruct (m s) as [[e | a] s1]; simpl in *.
  - eauto.
  - destruct (Hk a s1) as (g2 & E2 & N2).
    exists (g1 ++ g2). rewrite E2, E1, app_assoc.
    split; [done | by apply no_break_app].
Qed.

Lemma quiet_try_except {A} (body : M A) hs (h : exn -> M A) :
  quiet body -> (forall e, quiet (h e)) -> quiet (try_except body hs h).
Proof.
  intros Hb Hh s. unfold try_except.
  destruct (Hb s) as (g1 & E1 & N1).
  destruct (body s) as [[e | a] s1]; simpl in *.
  - destruct (hs e); simpl; [| eauto].
    destruct (Hh e s1) as (g2 & E2 & N2).
    exists (g1 ++ g2). rewrite E2, E1, app_assoc.
    split; [done | by apply no_break_app].
  - eauto.
Qed.

Lemma quiet_for {A} (l : list A) (f : A -> M unit) :
  (forall x, quiet (f x)) -> quiet (for_ l f).
Proof.
  intros Hf. induction l as [|x l IH]; simpl.
  - apply quiet_ret.
  - apply quiet_bind; auto.
Qed.

Lemma quiet_when_str o (k : string -> M unit) :
  (forall x, quiet (k x)) -> quiet (when_str o k).
Proof.
  intros Hk. destruct o as [x|]; simpl; [| apply quiet_ret].
  destruct (non_empty x); [apply Hk | apply quiet_ret].
Qed.

Lemma quiet_when_list {A} o (k : list A -> M unit) :
  (forall x, quiet (k x)) -> quiet (when_list o k).
Proof.
  intros Hk. destruct o as [[|x l]|]; simpl; auto using quiet_ret.
Qed.

Lemma quiet_same_story {A} (m : M A) :
  (forall s, story (snd (m s)) = story s) -> quiet m.
Proof.
  intros H s. exists []. rewrite H, app_nil_r. split; [done | constructor].
Qed.

Lemma quiet_append f : is_PageBreak f = false -> quiet (append f).
Proof.
  intros H s. exists [f]. simpl. split; [done |].
  by repeat constructor.
Qed.

Lemma quiet_logger lvl msg : quiet (logger lvl msg).
Proof. by apply quiet_same_story. Qed.

Lemma quiet_track p : quiet (track p).
Proof. by apply quiet_same_story. Qed.

Lemma quiet_path_exists p : quiet (path_exists p).
Proof. by apply quiet_same_story. Qed.

Lemma quiet_NamedTemporaryFile sfx : quiet (NamedTemporaryFile sfx).
Proof. by apply quiet_same_story. Qed.

Lemma quiet_unlink w p : quiet (unlink w p).
Proof.
  apply quiet_same_story. intros s. unfold unlink.
  destruct (w_unlink w p); [done |]. by case_bool_decide.
Qed.

Lemma quiet_mk_Paragraph o sty : quiet (mk_Paragraph o sty).
Proof. destruct o; [apply quiet_ret | apply quiet_raise]. Qed.

Lemma quiet_mk_Image w p : quiet (mk_Image w p).
Proof.
  unfold mk_Image. destruct (w_image w p); [apply quiet_raise | apply quiet_ret].
Qed.

#[export] Hint Resolve quiet_ret quiet_raise quiet_logger quiet_track
  quiet_path_exists quiet_NamedTemporaryFile quiet_unlink
  quiet_mk_Paragraph quiet_mk_Image : quiet_db.

(** Break a goal [quiet m] down along the structure of [m]. *)
Ltac quiet_step :=
  first
    [ apply quiet_bind; [| intros ? ]
    | apply quiet_try_except; [| intros ? ]
    | apply quiet_for; intros ?
    | apply quiet_when_str; intros ?
    | apply quiet_when_list; intros ?
    | apply quiet_append; reflexivity
    | solve [ auto with quiet_db ]
    | match goal with
      | |- quiet (if ?b then _ else _) => destruct b
      | |- quiet (match ?x with _ => _ end) => destruct x
      | |- quiet (let '(_, _) := ?x in _) => destruct x
      end ].

Lemma quiet_bind_ret {A B} (a : A) (k : A -> M B) :
  quiet (k a) -> quiet (bind (ret a) k).
Proof. intros H s. apply H. Qed.

Lemma quiet_bind_raise {A B} e (k : A -> M B) : quiet (bind (raise e) k).
Proof. intros s. exists []. simpl. rewrite app_nil_r. split; [done | constructor]. Qed.

(** A paragraph or an image made by the backend is no page break. *)
Ltac quiet_made :=
  match goal with
  | |- quiet (bind (mk_Paragraph ?o _) _) =>
      destruct o; unfold mk_Paragraph;
      [apply quiet_bind_ret | apply quiet_bind_raise]
  | |- quiet (bind (mk_Image ?w ?p) _) =>
      unfold mk_Image; destruct (w_image w p);
      [apply quiet_bind_raise | apply quiet_bind_ret]
  end.

Ltac quiet_go := repeat first [ quiet_made | quiet_step ].

Section Quiet.
Context (w : World) (theme : ThemeSpec.t).

Lemma quiet_download_image url : quiet (_download_image w url).
Proof. unfold _download_image. quiet_go. Qed.

Lemma quiet_embed_image p q c : quiet (embed_image w theme p q c).
Proof. unfold embed_image. quiet_go. Qed.

Lemma quiet_add_image p c : quiet (_add_image w theme p c).
Proof.
  unfold _add_image.
  quiet_go; auto using quiet_download_image, quiet_embed_image.
Qed.

Lemma quiet_render_mermaid c : quiet (_render_mermaid_to_png w c).
Proof. unfold _render_mermaid_to_png. quiet_go. Qed.

Lemma quiet_add_code_block c l n : quiet (_add_code_block theme c l n).
Proof. unfold _add_code_block. quiet_go. Qed.

Lemma quiet_add_table d h : quiet (_add_table theme d h).
Proof. unfold _add_table. quiet_go. Qed.

Lemma quiet_add_content_item item : quiet (_add_content_item w theme item).
Proof.
  unfold _add_content_item.
  quiet_go; auto using quiet_add_image, quiet_add_code_block, quiet_add_table.
Qed.

Lemma quiet_heading page : quiet (heading theme page).
Proof. unfold heading. quiet_go. Qed.

Lemma quiet_description_bullets d : quiet (description_bullets theme d).
Proof. unfold description_bullets. quiet_go. Qed.
End Quiet.

#[export] Hint Resolve quiet_download_image quiet_embed_image quiet_add_image
  quiet_render_mermaid quiet_add_code_block quiet_add_table
  quiet_add_content_item quiet_heading quiet_description_bullets : quiet_db.

Lemma quiet_reference_entry theme style i ref :
  quiet (append (reference_entry theme style i ref)).
Proof.
  apply quiet_append. unfold reference_entry.
  by repeat case_decide.
Qed.

#[export] Hint Resolve quiet_reference_entry : quiet_db.

(** *** Pages end with their only page break *)

Lemma one_break_last : one_break (append PageBreak).
Proof.
  intros s s' H. inversion H; subst; simpl. exists []. split; [done | constructor].
Qed.

Lemma one_break_bind {A} (m : M A) (k : A -> M unit) :
  quiet m -> (forall a, one_break (k a)) -> one_break (bind m k).
Proof.
  intros Hm Hk s s' H. unfold bind in H.
  destruct (Hm s) as (g1 & E1 & N1).
  destruct (m s) as [[e | a] s1]; simpl in *; [done |].
  destruct (Hk a s1 s' H) as (g2 & E2 & N2).
  exists (g1 ++ g2). rewrite E2, E1, !app_assoc.
  split; [done | by apply no_break_app].
Qed.

Lemma one_break_bind_ret {A} (a : A) (k : A -> M unit) :
  one_break (k a) -> one_break (bind (ret a) k).
Proof. intros H s s'. apply H. Qed.

Lemma one_break_bind_raise {A} e (k : A -> M unit) :
  one_break (bind (raise e) k).
Proof. intros s s' H. discriminate H. Qed.

Ltac one_break_go :=
  repeat first
    [ apply one_break_last
    | match goal with
      | |- one_break (bind (mk_Paragraph ?o _) _) =>
          destruct o; unfold mk_Paragraph;
          [apply one_break_bind_ret | apply one_break_bind_raise]
      end
    | apply one_break_bind; [ quiet_go | intros ? ] ].

Lemma one_break_generate_page w theme page :
  one_break (_generate_page w theme page).
Proof.
  unfold _generate_page.
  destruct (PageSpec.page_type page);
    unfold _add_title_page, _add_toc_page, _add_section_page,
      _add_content_page, _add_code_page, _add_diagram_page,
      _add_image_page, _add_mermaid_page, _add_summary_page,
      _add_references_page, heading;
    one_break_go.
Qed.

(** *** What returns *)

Lemma total_ret {A} (a : A) : total (ret a).
Proof. intros s. by exists a, s. Qed.

Lemma total_bind {A B} (m : M A) (k : A -> M B) :
  total m -> (forall a, total (k a)) -> total (bind m k).
Proof.
  intros Hm Hk s. unfold bind.
  destruct (Hm s) as (a & s1 & ->). apply Hk.
Qed.

Lemma total_try_all {A} (body : M A) (h : exn -> M A) :
  (forall e, total (h e)) -> total (try_except body (fun _ => true) h).
Proof.
  intros Hh s. unfold try_except.
  destruct (body s) as [[e | a] s1]; [apply Hh | by exists a, s1].
Qed.

Lemma total_for {A} (l : list A) (f : A -> M unit) :
  (forall x, total (f x)) -> total (for_ l f).
Proof.
  intros Hf. induction l as [|x l IH]; simpl.
  - apply total_ret.
  - apply total_bind; auto.
Qed.

Lemma total_when_str o (k : string -> M unit) :
  (forall x, total (k x)) -> total (when_str o k).
Proof.
  intros Hk. destruct o as [x|]; simpl; [| apply total_ret].
  destruct (non_empty x); [apply Hk | apply total_ret].
Qed.

Lemma total_when_list {A} o (k : list A -> M unit) :
  (forall x, total (k x)) -> total (when_list o k).
Proof.
  intros Hk. destruct o as [[|x l]|]; simpl; auto using total_ret.
Qed.

Lemma total_append f : total (append f).
Proof. intros s. by eexists _, _. Qed.

Lemma total_logger lvl msg : total (logger lvl msg).
Proof. intros s. by eexists _, _. Qed.

Lemma total_clear_tracked : total clear_tracked.
Proof. intros s. by eexists _, _. Qed.

Lemma total_get_tracked : total get_tracked.
Proof. intros s. by eexists _, _. Qed.

#[export] Hint Resolve total_ret total_append total_logger total_clear_tracked
  total_get_tracked : total_db.

Ltac total_step :=
  first
    [ apply total_try_all; intros ?
    | apply total_bind; [| intros ? ]
    | apply total_for; intros ?
    | apply total_when_str; intros ?
    | apply total_when_list; intros ?
    | solve [ auto with total_db ]
    | match goal with
      | |- total (if ?b then _ else _) => destruct b
      | |- total (match ?x with _ => _ end) => destruct x
      | |- total (let '(_, _) := ?x in _) => destruct x
      end ].

Ltac total_go := repeat total_step.

Section Total.
Context (w : World) (theme : ThemeSpec.t).

Lemma total_download_image url : total (_download_image w url).
Proof. unfold _download_image. total_go. Qed.

Lemma total_add_image p c : total (_add_image w theme p c).
Proof. unfold _add_image. total_go. Qed.

Lemma total_render_mermaid c : total (_render_mermaid_to_png w c).
Proof. unfold _render_mermaid_to_png. total_go. Qed.

Lemma total_cleanup : total (_cleanup_downloaded_images w).
Proof. unfold _cleanup_downloaded_images. total_go. Qed.

Lemma total_add_code_block c l n : total (_add_code_block theme c l n).
Proof. unfold _add_code_block. total_go. Qed.

Lemma total_add_table d h : total (_add_table theme d h).
Proof. unfold _add_table. total_go. Qed.

Lemma total_add_content_item item : total (_add_content_item w theme item).
Proof.
  unfold _add_content_item.
  total_go; auto using total_add_image, total_add_code_block, total_add_table.
Qed.

Lemma total_description_bullets d : total (description_bullets theme d).
Proof. unfold description_bullets. total_go. Qed.
End Total.

#[export] Hint Resolve total_download_image total_add_image
  total_render_mermaid total_cleanup total_add_code_block total_add_table
  total_add_content_item total_description_bullets : total_db.

Lemma total_generate_page w theme page :
  titled page -> total (_generate_page w theme page).
Proof.
  unfold titled, _generate_page. intros Ht.
  destruct (PageSpec.page_type page); simpl in Ht;
    unfold _add_title_page, _add_toc_page, _add_section_page,
      _add_content_page, _add_code_page, _add_diagram_page,
      _add_image_page, _add_mermaid_page, _add_summary_page,
      _add_references_page, heading;
    try (destruct Ht as [t Ht]; [done |]; rewrite Ht; unfold mk_Paragraph);
    total_go.
Qed.

(** ** Composition of the pages, in order *)

Lemma filter_no_break g : no_break g -> List.filter is_PageBreak g = [].
Proof.
  induction 1 as [|f g Hf _ IH]; simpl; [done |]. by rewrite Hf.
Qed.

Lemma page_group_breaks g :
  page_group g -> length (List.filter is_PageBreak g) = 1%nat.
Proof.
  intros (g0 & -> & N). rewrite List.filter_app, (filter_no_break g0 N). done.
Qed.

Lemma page_group_last g : page_group g -> last g = Some PageBreak.
Proof. intros (g0 & -> & _). apply last_snoc. Qed.

Lemma page_groups_breaks groups :
  Forall page_group groups ->
  length (List.filter is_PageBreak (concat groups)) = length groups.
Proof.
  induction 1 as [|g groups Hg _ IH]; simpl; [done |].
  rewrite List.filter_app, length_app, IH, (page_group_breaks g Hg). done.
Qed.

Lemma generate_pages_composed w theme pages :
  Forall titled pages ->
  forall n s, exists groups s',
    generate_pages w theme pages n s = (inr (n + length pages)%nat, s') /\
    composed w theme pages groups s s' /\
    story s' = story s ++ concat groups /\
    Forall page_group groups.
Proof.
  induction 1 as [|page pages Ht _ IH]; intros n s.
  - exists [], s. simpl. rewrite Nat.add_0_r, app_nil_r.
    repeat split; constructor.
  - destruct (total_generate_page w theme page Ht s) as ([] & s1 & E1).
    destruct (one_break_generate_page w theme page s s1 E1) as (g0 & Eg & N0).
    destruct (IH (n + 1)%nat s1) as (groups & s' & E2 & C2 & St & G).
    exists ((g0 ++ [PageBreak]) :: groups), s'.
    repeat split.
    + simpl. unfold bind, try_except. rewrite E1. rewrite E2.
      do 2 f_equal. lia.
    + simpl. exists s1. done.
    + simpl. rewrite St, Eg, !app_assoc. done.
    + constructor; [by exists g0 | done].
Qed.

Lemma generate_pages_count w theme pages :
  forall n s m s',
    generate_pages w theme pages n s = (inr m, s') ->
    m = (n + length pages)%nat.
Proof.
  induction pages as [|p pages IH]; intros n s m s' H; simpl in *.
  - inversion H. lia.
  - unfold bind at 1 in H. unfold try_except in H.
    destruct (_generate_page w theme p s) as [[e | []] s1]; [done |].
    apply IH in H. lia.
Qed.

(** One turn of the loop of [_cleanup_downloaded_images]: it returns,
    whatever the deletion does; no file is added; and the file is gone
    unless its deletion raised. *)
Lemma cleanup_turn w p s :
  exists s1,
    try_except
      (bind (path_exists p) (fun ex => if ex then unlink w p else ret tt))
      (fun _ => true)
      (fun e =>
         logger WARNING
           ("Failed to clean up temporary image "
            +:+ p +:+ ": " +:+ str_of_exn e)) s
    = (inr tt, s1) /\
    story s1 = story s /\
    files s1 ⊆ files s /\
    (w_unlink w p = None -> p ∉ files s1).
Proof.
  unfold try_except, bind, path_exists, unlink.
  destruct (bool_decide (p ∈ files s)) eqn:Ef;
    destruct (bool_decide (p ∈ dirs s)) eqn:Ed; simpl;
    destruct (w_unlink w p); simpl; rewrite ?Ef; simpl;
    try apply bool_decide_eq_true_1 in Ef;
    try apply bool_decide_eq_false_1 in Ef;
    eexists; (split; [reflexivity |]); simpl; (split; [done |]);
    (split; [first [done | apply subseteq_difference_l; done] |]);
    intros Hu;
    first [discriminate Hu | done
          | rewrite not_elem_of_difference; right; by apply elem_of_singleton].
Qed.

(** The cleanup returns, with the list empty and the story as it was;
    no file is added, and every file of the list whose deletion does
    not raise is gone. *)
Lemma cleanup_drains w s :
  exists s',
    _cleanup_downloaded_images w s = (inr tt, s') /\
    downloaded_images s' = [] /\
    story s' = story s /\
    files s' ⊆ files s /\
    (forall p, p ∈ downloaded_images s -> w_unlink w p = None ->
               p ∉ files s').
Proof.
  unfold _cleanup_downloaded_images.
  rewrite (bind_run _ _ s (downloaded_images s) s) by reflexivity.
  generalize (downloaded_images s) as l.
  intros l.
  assert (H : exists s1,
            for_ l (fun temp_path =>
              try_except
                (bind (path_exists temp_path)
                   (fun ex => if ex then unlink w temp_path else ret tt))
                (fun _ => true)
                (fun e =>
                   logger WARNING
                     ("Failed to clean up temporary image "
                      +:+ temp_path +:+ ": " +:+ str_of_exn e))) s
            = (inr tt, s1) /\ story s1 = story s /\
            files s1 ⊆ files s /\
            (forall p, p ∈ l -> w_unlink w p = None -> p ∉ files s1)).
  { revert s. induction l as [|p l IH]; intros s; simpl.
    - exists s. repeat split; [done |]. intros p Hp. by apply elem_of_nil in Hp.
    - unfold bind at 1.
      destruct (cleanup_turn w p s) as (s1 & -> & St1 & F1 & D1).
      destruct (IH s1) as (s2 & -> & St2 & F2 & D2).
      exists s2. repeat split; [congruence | set_solver |].
      intros q Hq Hu. apply elem_of_cons in Hq as [-> | Hq].
      + specialize (D1 Hu). set_solver.
      + by apply D2. }
  destruct H as (s1 & E & St & F & D).
  rewrite (bind_run _ _ s tt s1 E). by eexists.
Qed.

Lemma composed_length w theme pages :
  forall groups s s',
    composed w theme pages groups s s' -> length groups = length pages.
Proof.
  induction pages as [|p pages IH]; intros [|g groups] s s' H;
    simpl in *; try done.
  destruct H as (s1 & _ & _ & H). f_equal. eauto.
Qed.

Lemma generate_pages_returns w theme pages :
  forall n s m s',
    generate_pages w theme pages n s = (inr m, s') ->
    exists groups,
      composed w theme pages groups s s' /\
      story s' = story s ++ concat groups /\
      Forall page_group groups.
Proof.
  induction pages as [|page pages IH]; intros n s m s' H; simpl in H.
  - inversion H; subst. exists []. simpl. rewrite app_nil_r.
    repeat split; constructor.
  - unfold bind at 1 in H. unfold try_except in H.
    destruct (_generate_page w theme page s) as [[e | []] s1] eqn:E1;
      [done |].
    destruct (one_break_generate_page w theme page s s1 E1) as (g0 & Eg & N0).
    destruct (IH _ _ _ _ H) as (groups & C & St & G).
    exists ((g0 ++ [PageBreak]) :: groups). repeat split.
    + simpl. exists s1. done.
    + simpl. rewrite St, Eg, !app_assoc. done.
    + constructor; [by exists g0 | done].
Qed.

(** In a run that returns, the story at the end is the one the loop
    over the pages has built from the empty story. *)
Lemma generate_pdf_story w doc_spec s r s' :
  generate_pdf w doc_spec s = (inr r, s') ->
  exists s0 m s1,
    story s0 = [] /\
    generate_pages w (DocumentSpec.theme doc_spec)
      (DocumentSpec.pages doc_spec) 0 s0 = (inr m, s1) /\
    pages_generated r = m /\
    story s' = story s1.
Proof.
  intros H. unfold generate_pdf in H. unfold bind at 1 in H.
  destruct (resolve_output_dir w _ s) as [[e | [dir msg]] s1]; [done |].
  unfold bind at 1 in H. cbn [reset_story] in H.
  unfold bind at 1 in H.
  destruct (generate_pages w _ _ 0%nat _) as [[e | m] s2] eqn:Eg; [done |].
  eexists _, m, s2. split; [| split; [exact Eg |]]; [done |].
  unfold bind at 1 in H. cbn [get_story] in H.
  unfold bind at 1 in H.
  unfold build in H.
  destruct (w_build w _ _) as [e|]; [done |].
  unfold bind at 1 in H.
  match type of H with
  | context [_cleanup_downloaded_images w ?st] =>
      destruct (cleanup_drains w st) as (s4 & E4 & _ & St4 & _)
  end.
  rewrite E4 in H.
  unfold bind at 1 in H. cbn [snd fst] in H.
  destruct msg as [m0|]; simpl in H.
  - destruct (non_empty m0); inversion H; subst; done.
  - inversion H; subst; done.
Qed.



(** The scenario of the specification, run: two pages, one page break
    at the end of each. *)
Example sample_doc_run :
  let run := generate_pdf sample_World sample_doc (init_State ∅ ∅) in
  fst run
  = inr {| ok := true;
           output := "/out/t_20240101_120000.pdf";
           pages_generated := 2;
           filename := "t_20240101_120000.pdf";
           message := None |} /\
  map is_PageBreak (story (snd run))
  = [false; false; true; false; false; false; false; true].
Proof. vm_compute. repeat split. Qed.

(** ** Theme resolution *)

(** C6.  Resolving a theme is a total function.  A theme that supplies
    only [colors.primary] resolves to the complete theme that has this
    primary colour and, in every other colour, font, size, spacing and
    geometry field, the default declared in the source.  The groups
    resolve independently: the resolved fonts do not depend on the
    colours supplied, nor the resolved colours on the fonts supplied;
    and inside the colours, a field depends on its own input only. *)
Theorem theme_overlay_is_field_level (p : string) :
  ThemeSpec.model_validate (only_primary p)
  = {| ThemeSpec.colors :=
         {| ColorPalette.primary := p;
            ColorPalette.secondary := "#1CCBD0";
            ColorPalette.accent := "#F59E0B";
            ColorPalette.background := "#FFFFFF";
            ColorPalette.text := "#111827";
            ColorPalette.code_bg := "#F5F5F5" |};
       ThemeSpec.fonts :=
         {| FontPalette.heading := "Helvetica-Bold";
            FontPalette.body := "Helvetica";
            FontPalette.code := "Courier" |};
       ThemeSpec.logo_path := None;
       ThemeSpec.title_font_size := 24;
       ThemeSpec.subtitle_font_size := 16;
       ThemeSpec.h1_font_size := 18;
       ThemeSpec.h2_font_size := 14;
       ThemeSpec.h3_font_size := 12;
       ThemeSpec.body_font_size := 10;
       ThemeSpec.code_font_size := 9;
       ThemeSpec.line_spacing := (12 # 10)%Q;
       ThemeSpec.paragraph_spacing := 6%Q;
       ThemeSpec.page_width := 612%Q;
       ThemeSpec.page_height := 792%Q;
       ThemeSpec.margin_top := 72%Q;
       ThemeSpec.margin_bottom := 72%Q;
       ThemeSpec.margin_left := 72%Q;
       ThemeSpec.margin_right := 72%Q |}
  /\ ColorPalette.secondary
       (ThemeSpec.colors (ThemeSpec.model_validate (only_primary p)))
     = ColorPalette.secondary (ThemeSpec.colors ThemeSpec.defaults)
  /\ (forall i c,
        ThemeSpec.fonts (ThemeSpec.model_validate (with_in_colors c i))
        = ThemeSpec.fonts (ThemeSpec.model_validate i))
  /\ (forall i f,
        ThemeSpec.colors (ThemeSpec.model_validate (with_in_fonts f i))
        = ThemeSpec.colors (ThemeSpec.model_validate i))
  /\ (forall a a' b c d e f,
        ColorPalette.secondary
          (ColorPalette.model_validate (ColorPalette.mk_input a b c d e f))
        = ColorPalette.secondary
            (ColorPalette.model_validate
               (ColorPalette.mk_input a' b c d e f)))
  /\ (forall i x,
        ThemeSpec.in_colors i
        = Some (ColorPalette.mk_input (Some x) None None None None None) ->
        ColorPalette.primary (ThemeSpec.colors (ThemeSpec.model_validate i))
        = x /\
        ColorPalette.secondary (ThemeSpec.colors (ThemeSpec.model_validate i))
        = "#1CCBD0").
Proof.
  repeat split; try reflexivity.
  - destruct i; simpl in *; subst; reflexivity.
  - destruct i; simpl in *; subst; reflexivity.
Qed.

Lemma theme_overlay_is_field_level_witness :
  ThemeSpec.in_colors (only_primary "#000000")
  = Some (ColorPalette.mk_input (Some "#000000") None None None None None)
  /\ ColorPalette.primary
       (ThemeSpec.colors (ThemeSpec.model_validate (only_primary "#000000")))
     = "#000000"
  /\ ColorPalette.secondary
       (ThemeSpec.colors (ThemeSpec.model_validate (only_primary "#000000")))
     = "#1CCBD0".
Proof.
  split; [reflexivity |].
  exact (proj2 (proj2 (proj2 (proj2 (proj2
           (theme_overlay_is_field_level "#000000")))))
           (only_primary "#000000") "#000000" eq_refl).
Defined.

(** ** The [image] shorthand *)

(** C5.  For a page input that carries the key [image] with value [v]:
    the key [image] is gone from the rewritten input; [v] is put under
    exactly one key, [diagram_url] or [diagram_path] when the page type
    is "diagram", [image_url] or [image_path] otherwise, the url key
    when [v] is a string that starts with http:// or https:// and the
    path key for any other value; every other key, the sibling of the
    chosen one among them, is as it was, so a sibling that was unset
    stays unset.  An input without the key [image] is returned as it
    is. *)
Theorem image_shorthand_rewrite (values : gmap string value) :
  let values' := handle_image_field_dict values in
  handle_image_field (RawDict values) = RawDict values' /\
  (forall v, values !! "image" = Some v ->
     let target :=
       spec_image_target (is_diagram_type (values !! "page_type"))
                         (is_url_value v) in
     values' !! "image" = None /\
     values' !! target = Some v /\
     (forall k, k ≠ "image" -> k ≠ target -> values' !! k = values !! k) /\
     (forall s, v = VStr s ->
        is_url_value v = startswith "http://" s || startswith "https://" s) /\
     (is_str v = false -> is_url_value v = false)) /\
  (values !! "image" = None -> values' = values).
Proof.
  intros values'. split; [done |]. split.
  - intros v Hv target.
    assert (Hpt : delete "image" values !! "page_type"
                  = values !! "page_type")
      by (by rewrite lookup_delete_ne).
    assert (Ht : target ≠ "image").
    { unfold target, spec_image_target.
      destruct (is_diagram_type _), (is_url_value v); done. }
    assert (Hv' : values' = <[target := v]> (delete "image" values)).
    { unfold values', handle_image_field_dict, target, spec_image_target.
      rewrite Hv, Hpt.
      destruct (is_diagram_type _), (is_url_value v); done. }
    repeat split.
    + rewrite Hv'. rewrite lookup_insert_ne by done. apply lookup_delete_eq.
    + rewrite Hv'. apply lookup_insert_eq.
    + intros k Hk1 Hk2. rewrite Hv'.
      rewrite lookup_insert_ne by done. by rewrite lookup_delete_ne.
    + intros s ->. reflexivity.
    + destruct v; simpl; done.
  - intros Hn. unfold values', handle_image_field_dict. by rewrite Hn.
Qed.

Lemma image_shorthand_rewrite_witness :
  let values' := handle_image_field_dict sample_diagram_input in
  values' !! "image" = None /\
  values' !! "diagram_url" = Some (VStr "https://example.com/d.png") /\
  values' !! "diagram_path" = None.
Proof.
  assert (H : sample_diagram_input !! "image"
              = Some (VStr "https://example.com/d.png"))
    by (vm_compute; reflexivity).
  destruct (image_shorthand_rewrite sample_diagram_input) as (_ & Hr & _).
  destruct (Hr _ H) as (H1 & H2 & H3 & _).
  split; [exact H1 |]. split; [exact H2 |].
  rewrite (H3 "diagram_path"); [vm_compute; reflexivity | done | done].
Defined.

(** The same shorthand on an image page goes to [image_url]; a
    shorthand with no scheme goes to the path key of the kind. *)
Example image_shorthand_other_cases :
  handle_image_field_dict
    (<["image" := VStr "https://example.com/d.png"]>
       {["page_type" := VEnum IMAGE]})
  = <["image_url" := VStr "https://example.com/d.png"]>
      {["page_type" := VEnum IMAGE]} /\
  handle_image_field_dict
    (<["image" := VStr "/tmp/d.png"]> {["page_type" := VStr "diagram"]})
  = <["diagram_path" := VStr "/tmp/d.png"]> {["page_type" := VStr "diagram"]}
  /\
  handle_image_field_dict
    (<["image" := VStr "d.png"]> {["page_type" := VStr "content"]})
  = <["image_path" := VStr "d.png"]> {["page_type" := VStr "content"]}.
Proof. repeat split; apply map_eq; intros k; vm_compute; reflexivity. Qed.

(** ** Pages without a title *)

Lemma heading_untitled {B} theme page (k : unit -> M B) s :
  PageSpec.title page = None ->
  exists e, bind (heading theme page) k s = (inl e, s) /\
            exn_cls e = AttributeError.
Proof. intros H. unfold heading. rewrite H. by eexists. Qed.

Lemma untitled_page_raises w theme page s :
  PageSpec.title page = None ->
  needs_title (PageSpec.page_type page) = true ->
  exists e s',
    _generate_page w theme page s = (inl e, s') /\
    exn_cls e = AttributeError /\
    List.filter is_PageBreak (story s') = List.filter is_PageBreak (story s).
Proof.
  intros Hn Hk. unfold _generate_page.
  destruct (PageSpec.page_type page); try discriminate Hk;
    unfold _add_title_page, _add_section_page, _add_content_page,
      _add_code_page, _add_diagram_page, _add_image_page, _add_mermaid_page.
  3-7: edestruct (@heading_untitled unit theme page) as (e & E & He);
         [exact Hn |]; exists e, s; split; [exact E | done].
  - unfold bind at 1. simpl. rewrite Hn. simpl.
    eexists _, _. split; [reflexivity |]. split; [done |].
    simpl. rewrite List.filter_app. simpl. by rewrite app_nil_r.
  - unfold bind at 1. simpl. rewrite Hn. simpl.
    eexists _, _. split; [reflexivity |]. split; [done |].
    simpl. rewrite List.filter_app. simpl. by rewrite app_nil_r.
Qed.

Lemma generate_pages_raises w theme page pages :
  (forall s, exists e s', _generate_page w theme page s = (inl e, s')) ->
  page ∈ pages ->
  forall n s, exists e s', generate_pages w theme pages n s = (inl e, s').
Proof.
  intros Hp Hin. induction pages as [|p0 pages IH]; intros n s.
  - by apply elem_of_nil in Hin.
  - simpl. unfold bind at 1. unfold try_except.
    destruct (_generate_page w theme p0 s) as [[e | []] s1] eqn:E.
    + simpl. by eexists _, _.
    + apply elem_of_cons in Hin as [-> | Hin].
      * destruct (Hp s) as (e & s' & E'). congruence.
      * apply IH, Hin.
Qed.

Lemma generate_pdf_raises w doc_spec page :
  (forall s, exists e s',
     _generate_page w (DocumentSpec.theme doc_spec) page s = (inl e, s')) ->
  page ∈ DocumentSpec.pages doc_spec ->
  forall s, exists e s', generate_pdf w doc_spec s = (inl e, s').
Proof.
  intros Hp Hin s. unfold generate_pdf. unfold bind at 1.
  destruct (resolve_output_dir w _ s) as [[e | dm] s1]; [by eexists _, _ |].
  unfold bind at 1. simpl. unfold bind at 1.
  destruct (generate_pages_raises w _ page _ Hp Hin 0%nat
              (snd (reset_story s1))) as (e & s' & E).
  simpl in E. rewrite E. by eexists _, _.
Qed.



(** ** Mermaid pages *)

Lemma heading_titled theme page t s :
  PageSpec.title page = Some t ->
  heading theme page s = emit (heading_flowables theme t) s.
Proof.
  intros H. unfold heading. rewrite H. simpl.
  unfold bind, ret, append, emit, add_story. simpl.
  by rewrite <- app_assoc.
Qed.

Lemma description_bullets_run theme d s :
  description_bullets theme d s = emit (description_flowables theme d) s.
Proof.
  unfold description_bullets, description_flowables.
  destruct d as [[str | [|x l]] |]; cbn [truthy_desc].
  - destruct (non_empty str); [| by rewrite emit_run, add_story_nil].
    rewrite !append_emit. apply bind_emit_emit.
  - by rewrite emit_run, add_story_nil.
  - rewrite (bind_run _ _ s tt (add_story [Spacer 1 ((2 # 10) * inch)%Q] s))
      by reflexivity.
    rewrite (for_emit (fun desc => Paragraph (bullet_text desc)
                                     (st_bullet (styles theme))) (x :: l)).
    by rewrite !emit_run, add_story_app.
  - by rewrite emit_run, add_story_nil.
Qed.

Lemma no_image_description theme d :
  Forall (fun f => is_Image f = false) (description_flowables theme d).
Proof.
  unfold description_flowables.
  destruct d as [[str | [|x l]] |]; try constructor; simpl.
  - destruct (non_empty str); repeat constructor.
  - done.
  - constructor; [done |]. apply Forall_fmap. by apply Forall_true.
Qed.

Lemma render_fails_None w c s :
  render_fails (w_mmdc w c) ->
  exists s1, _render_mermaid_to_png w c s = (inr None, s1) /\
             story s1 = story s /\
             downloaded_images s1 = downloaded_images s.
Proof.
  intros Hf. unfold _render_mermaid_to_png, try_except, bind. simpl.
  destruct (w_mmdc w c) as [rc err | e]; simpl in *.
  - unfold unlink. simpl.
    destruct (w_unlink w (tmp_name (tmp_count s) ".mmd")) as [e1|]; simpl.
    { destruct (exn_cls e1); simpl; by eexists. }
    case_bool_decide; simpl.
    2: { by eexists. }
    rewrite bool_decide_eq_true_2 by done. simpl.
    destruct (_ || _); simpl; [| by eexists].
    destruct (w_unlink w (tmp_name (S (tmp_count s)) ".png")) as [e2|]; simpl.
    { destruct (exn_cls e2); simpl; by eexists. }
    case_bool_decide; simpl; by eexists.
  - destruct (exn_cls e); simpl; by eexists.
Qed.

Lemma no_image_heading theme t :
  Forall (fun f => is_Image f = false) (heading_flowables theme t).
Proof. by repeat constructor. Qed.





(** ** Diagram and image pages *)

Lemma py_or_path (a : string) (b : option string) :
  non_empty a = true -> py_or (Some a) b = Some a.
Proof. intros H. unfold py_or. simpl. by rewrite H. Qed.

Lemma py_or_url (a b : option string) : truthy a = false -> py_or a b = b.
Proof. intros H. unfold py_or. by rewrite H. Qed.

Lemma when_str_truthy (o : option string) (p : string)
    (k : string -> M unit) s :
  o = Some p -> non_empty p = true -> when_str o k s = k p s.
Proof. intros -> H. unfold when_str. by rewrite H. Qed.

Lemma diagram_page_run w theme page t p s :
  PageSpec.page_type page = DIAGRAM ->
  PageSpec.title page = Some t ->
  py_or (PageSpec.diagram_path page) (PageSpec.diagram_url page) = Some p ->
  non_empty p = true ->
  exists s1,
    _add_image w theme p (PageSpec.caption page)
      (add_story (heading_flowables theme t) s) = (inr tt, s1) /\
    _generate_page w theme page s
    = (inr tt,
       add_story (description_flowables theme (PageSpec.description page)
                  ++ [PageBreak]) s1).
Proof.
  intros Hk Ht Hp Hne.
  destruct (total_add_image w theme p (PageSpec.caption page)
              (add_story (heading_flowables theme t) s)) as ([] & s1 & E1).
  exists s1. split; [exact E1 |].
  unfold _generate_page. rewrite Hk. unfold _add_diagram_page.
  rewrite (bind_run _ _ s tt (add_story (heading_flowables theme t) s))
    by exact (heading_titled theme page t s Ht).
  rewrite (bind_run _ _ _ tt s1)
    by (by rewrite (when_str_truthy _ p _ _ Hp Hne)).
  rewrite (bind_run _ _ _ tt _ (description_bullets_run _ _ _)).
  by rewrite append_emit, emit_run, !add_story_app.
Qed.

Lemma image_page_run w theme page t p s :
  PageSpec.page_type page = IMAGE ->
  PageSpec.title page = Some t ->
  py_or (PageSpec.image_path page) (PageSpec.image_url page) = Some p ->
  non_empty p = true ->
  exists s1,
    _add_image w theme p (PageSpec.caption page)
      (add_story (heading_flowables theme t) s) = (inr tt, s1) /\
    _generate_page w theme page s
    = (inr tt,
       add_story (description_joined_flowables theme
                    (PageSpec.description page)
                  ++ [PageBreak]) s1).
Proof.
  intros Hk Ht Hp Hne.
  destruct (total_add_image w theme p (PageSpec.caption page)
              (add_story (heading_flowables theme t) s)) as ([] & s1 & E1).
  exists s1. split; [exact E1 |].
  unfold _generate_page. rewrite Hk. unfold _add_image_page.
  rewrite (bind_run _ _ s tt (add_story (heading_flowables theme t) s))
    by exact (heading_titled theme page t s Ht).
  rewrite (bind_run _ _ _ tt s1)
    by (by rewrite (when_str_truthy _ p _ _ Hp Hne)).
  rewrite (bind_run _ _ _ tt
             (add_story (description_joined_flowables theme
                           (PageSpec.description page)) s1)).
  - by rewrite append_emit, emit_run, !add_story_app.
  - unfold description_joined_flowables.
    destruct (PageSpec.description page) as [[str | [|x l]] |];
      cbn [truthy_desc].
    + destruct (non_empty str); [| by rewrite add_story_nil].
      rewrite !append_emit. apply bind_emit_emit.
    + by rewrite add_story_nil.
    + rewrite !append_emit. apply bind_emit_emit.
    + by rewrite add_story_nil.
Qed.

Lemma filter_bullets theme (l : list string) :
  List.filter is_Paragraph
    (map (fun desc => Paragraph (bullet_text desc) (st_bullet (styles theme))) l)
  = map (fun desc => Paragraph (bullet_text desc) (st_bullet (styles theme))) l.
Proof.
  induction l as [|x l IH]; [done |].
  cbn [map List.filter is_Paragraph]. by f_equal.
Qed.



(** The page of the witness, evaluated: the image comes from the path,
    and the description gives one bullet paragraph for each entry. *)
Example both_refs_page_story :
  story (snd (_generate_page sample_World ThemeSpec.defaults both_refs_page
                (init_State {[ "/img/a.png" ]} ∅)))
  = [ Paragraph "D" (st_h1 (styles ThemeSpec.defaults));
      Spacer 1 ((2 # 10) * inch)%Q;
      Image "/img/a.png" (4 * inch)%Q (3 * inch)%Q;
      Spacer 1 ((2 # 10) * inch)%Q;
      Paragraph (bullet_text "x") (st_bullet (styles ThemeSpec.defaults));
      Paragraph (bullet_text "y") (st_bullet (styles ThemeSpec.defaults));
      PageBreak ].
Proof. vm_compute. reflexivity. Qed.

(** ** The output directory *)

Lemma use_requested_dir_ok w d s :
  requested_usable w d s = true ->
  exists s1, use_requested_dir w d s = (inr (d, None), s1).
Proof.
  unfold requested_usable, exists_b, succeeds, use_requested_dir.
  set (tf := path_join d ".write_test").
  intros H. apply andb_prop in H as [H H3]. apply andb_prop in H as [H1 H2].
  unfold bind, path_exists, mkdir, touch, unlink.
  destruct (w_touch w tf) eqn:Et; [done |].
  destruct (w_unlink w tf) eqn:Eu; [done |].
  destruct (bool_decide (d ∈ files s) || bool_decide (d ∈ dirs s)) eqn:Ex.
  - cbn -[tf]. rewrite bool_decide_eq_true_2 by set_solver. by eexists.
  - cbn -[tf] in *. destruct (w_mkdir w d); [done |]. cbn -[tf].
    rewrite bool_decide_eq_true_2 by set_solver. by eexists.
Qed.

Lemma use_requested_dir_fails w d s :
  fs_raises_OSError w ->
  requested_usable w d s = false ->
  exists e s1,
    use_requested_dir w d s = (inl e, s1) /\ is_OSError e = true /\
    story s1 = story s.
Proof.
  unfold requested_usable, exists_b, succeeds, use_requested_dir.
  set (tf := path_join d ".write_test").
  intros Hos H.
  unfold bind, path_exists, mkdir, touch, unlink.
  destruct (bool_decide (d ∈ files s) || bool_decide (d ∈ dirs s)) eqn:Ex;
    cbn -[tf] in *.
  - destruct (w_touch w tf) as [e|] eqn:Et; cbn -[tf] in *.
    { exists e. eexists. repeat split. apply (Hos tf e). eauto. }
    destruct (w_unlink w tf) as [e|] eqn:Eu; cbn -[tf] in *; [| done].
    exists e. eexists. repeat split. apply (Hos tf e). eauto.
  - destruct (w_mkdir w d) as [e|] eqn:Em; cbn -[tf] in *.
    { exists e. eexists. repeat split. apply (Hos d e). eauto. }
    destruct (w_touch w tf) as [e|] eqn:Et; cbn -[tf] in *.
    { exists e. eexists. repeat split. apply (Hos tf e). eauto. }
    destruct (w_unlink w tf) as [e|] eqn:Eu; cbn -[tf] in *; [| done].
    exists e. eexists. repeat split. apply (Hos tf e). eauto.
Qed.

Lemma use_fallback_dir_ok w d s :
  fallback_creatable w s = true ->
  exists s1,
    use_fallback_dir w d s
    = (inr (w_fallback_dir w, Some (fallback_note (w_fallback_dir w) d)), s1).
Proof.
  unfold fallback_creatable, exists_b, succeeds. intros H.
  unfold use_fallback_dir, bind, path_exists, mkdir.
  destruct (bool_decide (w_fallback_dir w ∈ files s)
            || bool_decide (w_fallback_dir w ∈ dirs s)) eqn:Ex;
    simpl in *; [by eexists |].
  destruct (w_mkdir w _); [done |]. by eexists.
Qed.

Lemma use_fallback_dir_fails w d s :
  fs_raises_OSError w ->
  fallback_creatable w s = false ->
  exists e s1, use_fallback_dir w d s = (inl e, s1) /\ is_OSError e = true.
Proof.
  unfold fallback_creatable, exists_b, succeeds. intros Hos H.
  unfold use_fallback_dir, bind, path_exists, mkdir.
  destruct (bool_decide (w_fallback_dir w ∈ files s)
            || bool_decide (w_fallback_dir w ∈ dirs s)) eqn:Ex;
    simpl in *; [done |].
  destruct (w_mkdir w _) as [e|] eqn:Em; [| done].
  exists e. eexists. split; [done |].
  apply (Hos (w_fallback_dir w) e). eauto.
Qed.

Lemma resolve_requested w d s :
  requested_usable w d s = true ->
  exists s1, resolve_output_dir w d s = (inr (d, None), s1).
Proof.
  intros H. destruct (use_requested_dir_ok w d s H) as (s1 & E).
  exists s1. unfold resolve_output_dir, try_except. by rewrite E.
Qed.

Lemma resolve_fallback w d s :
  fs_raises_OSError w ->
  requested_usable w d s = false ->
  fallback_creatable w (after_attempt w d s) = true ->
  exists s1,
    resolve_output_dir w d s
    = (inr (w_fallback_dir w, Some (fallback_note (w_fallback_dir w) d)), s1).
Proof.
  intros Hos H Hf. unfold after_attempt in Hf.
  destruct (use_requested_dir_fails w d s Hos H) as (e & s1 & E & He & _).
  rewrite E in Hf. simpl in Hf.
  destruct (use_fallback_dir_ok w d _ Hf) as (s2 & E2).
  exists s2. unfold resolve_output_dir. unfold try_except at 1.
  rewrite E, He. unfold bind at 1. simpl. unfold try_except.
  by rewrite E2.
Qed.

Lemma resolve_fatal w d s :
  fs_raises_OSError w ->
  requested_usable w d s = false ->
  fallback_creatable w (after_attempt w d s) = false ->
  exists msg s1,
    resolve_output_dir w d s = (inl (Exn RuntimeError msg), s1).
Proof.
  intros Hos H Hf. unfold after_attempt in Hf.
  destruct (use_requested_dir_fails w d s Hos H) as (e & s1 & E & He & _).
  rewrite E in Hf. simpl in Hf.
  destruct (use_fallback_dir_fails w d _ Hos Hf) as (e2 & s2 & E2 & He2).
  unfold resolve_output_dir. unfold try_except at 1.
  rewrite E, He. unfold bind at 1. simpl. unfold try_except.
  rewrite E2, He2. unfold bind. simpl. by eexists _, _.
Qed.

(** What a run that returns has gone through. *)
Lemma generate_pdf_result w doc_spec s r s' :
  generate_pdf w doc_spec s = (inr r, s') ->
  exists dir msg s1,
    resolve_output_dir w
      (OutputSpec.directory (DocumentSpec.output doc_spec)) s
    = (inr (dir, msg), s1) /\
    ok r = true /\
    pages_generated r = length (DocumentSpec.pages doc_spec) /\
    filename r = output_filename w doc_spec /\
    output r = path_join dir (filename r) /\
    message r = (if truthy msg then msg else None).
Proof.
  intros H. unfold generate_pdf in H. unfold bind at 1 in H.
  destruct (resolve_output_dir w _ s) as [[e | [dir msg]] s1] eqn:E;
    [done |].
  exists dir, msg, s1. split; [done |].
  unfold bind at 1 in H. cbn [reset_story] in H.
  unfold bind at 1 in H.
  destruct (generate_pages w _ _ 0%nat _) as [[e | m] s2] eqn:Eg; [done |].
  apply generate_pages_count in Eg.
  unfold bind at 1 in H. cbn [get_story] in H.
  unfold bind at 1 in H.
  destruct (build w _ _ s2) as [[e | []] s3]; [done |].
  unfold bind at 1 in H.
  destruct (_cleanup_downloaded_images w s3) as [[e | []] s4]; [done |].
  unfold bind at 1 in H.
  destruct (when_str _ _ s4) as [[e | []] s5]; [done |].
  inversion H; subst. simpl. done.
Qed.



(** The run of the fallback test, evaluated: the file goes to the
    fallback directory and the result holds the note. *)
Example fallback_run :
  fst (generate_pdf no_mnt_World fallback_doc (init_State ∅ ∅))
  = inr {| ok := true;
           output := "/home/user/pdf-output/fallback_test.pdf";
           pages_generated := 1;
           filename := "fallback_test.pdf";
           message :=
             Some ("Note: Saved to /home/user/pdf-output (requested "
                   +:+ "directory /mnt/user-data/outputs was not accessible)")
        |}.
Proof. vm_compute. reflexivity. Qed.

(** ** The file name *)

Lemma string_map_map f g s :
  string_map f (string_map g s) = string_map (fun c => f (g c)) s.
Proof. induction s as [|c s IH]; simpl; [done | by rewrite IH]. Qed.

Lemma string_map_ext f g s :
  (forall c, f c = g c) -> string_map f s = string_map g s.
Proof. intros H. induction s as [|c s IH]; simpl; [done | by rewrite H, IH]. Qed.

Lemma string_map_length f s : String.length (string_map f s) = String.length s.
Proof. induction s as [|c s IH]; simpl; [done | by rewrite IH]. Qed.

Lemma string_map_get f s :
  forall i, String.get i (string_map f s) = f <$> String.get i s.
Proof.
  induction s as [|c s IH]; intros i; simpl; [done |].
  destruct i; [done | apply IH].
Qed.

Lemma safe_char_derived c :
  lower_char (space_to_underscore (safe_char c)) = derived_char c.
Proof.
  unfold derived_char, safe_char, kept_char.
  destruct (isalnum c || _ || _ || _); reflexivity.
Qed.

Lemma safe_title_derived title :
  safe_title title = string_map derived_char title.
Proof.
  unfold safe_title. rewrite !string_map_map.
  apply string_map_ext, safe_char_derived.
Qed.




(** ** Temporary files *)

(** A run that returns has drained the list of temporary files. *)
Lemma generate_pdf_drains w doc_spec s r s' :
  generate_pdf w doc_spec s = (inr r, s') -> downloaded_images s' = [].
Proof.
  intros H. unfold generate_pdf in H. unfold bind at 1 in H.
  destruct (resolve_output_dir w _ s) as [[e | [dir msg]] s1]; [done |].
  unfold bind at 1 in H. cbn [reset_story] in H.
  unfold bind at 1 in H.
  destruct (generate_pages w _ _ 0%nat _) as [[e | m] s2]; [done |].
  unfold bind at 1 in H. cbn [get_story] in H.
  unfold bind at 1 in H.
  destruct (build w _ _ s2) as [[e | []] s3]; [done |].
  unfold bind at 1 in H.
  destruct (cleanup_drains w s3) as (s4 & E4 & D4 & _).
  rewrite E4 in H.
  unfold bind at 1 in H. cbn [snd fst] in H.
  destruct msg as [m0|]; simpl in H.
  - destruct (non_empty m0); inversion H; subst; done.
  - inversion H; subst; done.
Qed.

(** C2.  The run of [leaking_doc]: the first page downloads its image
    to a temporary file, the second page raises, and the run ends with
    that exception; the temporary file is still on disk and still in
    the list, which the run has not drained. *)
Theorem temp_files_left_when_page_raises :
  let run := generate_pdf sample_World leaking_doc (init_State ∅ ∅) in
  (exists msg, fst run = inl (Exn AttributeError msg)) /\
  downloaded_images (snd run) = ["/tmp/tmp0.png"] /\
  elements (files (snd run)) = ["/tmp/tmp0.png"].
Proof.
  split; [| split].
  - eexists. vm_compute. reflexivity.
  - vm_compute. reflexivity.
  - vm_compute. reflexivity.
Qed.

(** The same download in a run that returns: the file is deleted and
    the list is empty. *)
Example temp_files_deleted_when_run_returns :
  let doc_spec :=
    DocumentSpec.mk "Leak" ThemeSpec.defaults
      [ image_url_page "Pic" "https://example.com/a.png" ]
      (OutputSpec.mk (Some "leak.pdf") "/out") in
  let run := generate_pdf sample_World doc_spec (init_State ∅ ∅) in
  downloaded_images (snd run) = [] /\
  elements (files (snd run)) = ["/out/leak.pdf"] /\
  List.filter is_Image (story (snd run))
  = [Image "/tmp/tmp0.png" (4 * inch)%Q (3 * inch)%Q].
Proof. vm_compute. repeat split. Qed.

(** A deletion that fails is logged as a warning and the run returns
    all the same. *)
Example failed_deletion_is_logged :
  let doc_spec :=
    DocumentSpec.mk "Leak" ThemeSpec.defaults
      [ image_url_page "Pic" "https://example.com/a.png" ]
      (OutputSpec.mk (Some "leak.pdf") "/out") in
  let run := generate_pdf no_unlink_World doc_spec (init_State ∅ ∅) in
  (exists r, fst run = inr r) /\
  downloaded_images (snd run) = [] /\
  log (snd run)
  = [(WARNING,
      "Failed to clean up temporary image /tmp/tmp0.png: "
      +:+ "Operation not permitted")].
Proof.
  split; [| split].
  - eexists. vm_compute. reflexivity.
  - vm_compute. reflexivity.
  - vm_compute. reflexivity.
Qed.

(** * Further properties of the code *)

(** ** Temporary files, again *)

Lemma cleanup_unfold w s :
  _cleanup_downloaded_images w s
  = bind (for_ (downloaded_images s) (cleanup_one w))
      (fun _ => clear_tracked) s.
Proof. reflexivity. Qed.

Lemma cleanup_one_frame w p s :
  exists s1,
    cleanup_one w p s = (inr tt, s1) /\
    story s1 = story s /\ dirs s1 = dirs s /\
    downloaded_images s1 = downloaded_images s /\
    files s1 ⊆ files s /\
    (forall q, q ∈ files s -> q ≠ p -> q ∈ files s1) /\
    (forall q, q ∈ files s -> w_unlink w q ≠ None -> q ∈ files s1) /\
    (w_unlink w p = None -> p ∉ files s1) /\
    (forall r, r ∈ log s -> r ∈ log s1) /\
    (forall e, p ∈ files s -> w_unlink w p = Some e ->
               (WARNING, cleanup_warning p e) ∈ log s1).
Proof.
  unfold cleanup_one, try_except, bind, path_exists, unlink.
  destruct (bool_decide (p ∈ files s)) eqn:Ef;
    destruct (bool_decide (p ∈ dirs s)) eqn:Ed; simpl;
    destruct (w_unlink w p) as [e0|] eqn:Eu; simpl; rewrite ?Ef; simpl;
    try apply bool_decide_eq_true_1 in Ef;
    try apply bool_decide_eq_false_1 in Ef;
    eexists; (split; [reflexivity |]); simpl;
    repeat match goal with |- _ /\ _ => split end;
    try done.
  all: try (intros; apply elem_of_app; by left).
  all: try (intros e Hp He; inversion He; subst; apply elem_of_app; right;
            by apply list_elem_of_singleton).
  all: try (apply subseteq_difference_l; done).
  all: try (intros q Hq Hne; apply elem_of_difference; split;
            [done | by rewrite elem_of_singleton]).
  all: try (intros q Hq Hne; apply elem_of_difference; split; [done |];
            rewrite elem_of_singleton; intros ->; congruence).
  all: try (intros _; rewrite not_elem_of_difference; right;
            by apply elem_of_singleton).
Qed.

Lemma cleanup_loop_frame w l :
  forall s, exists s1,
    for_ l (cleanup_one w) s = (inr tt, s1) /\
    story s1 = story s /\ dirs s1 = dirs s /\
    downloaded_images s1 = downloaded_images s /\
    files s1 ⊆ files s /\
    (forall q, q ∈ files s -> q ∉ l -> q ∈ files s1) /\
    (forall q, q ∈ files s -> w_unlink w q ≠ None -> q ∈ files s1) /\
    (forall p, p ∈ l -> w_unlink w p = None -> p ∉ files s1) /\
    (forall r, r ∈ log s -> r ∈ log s1) /\
    (forall p e, p ∈ l -> p ∈ files s -> w_unlink w p = Some e ->
                 (WARNING, cleanup_warning p e) ∈ log s1).
Proof.
  induction l as [|p l IH]; intros s.
  - exists s. simpl. repeat split; try done.
    + intros q Hq. by apply elem_of_nil in Hq.
    + intros q e Hq. by apply elem_of_nil in Hq.
  - destruct (cleanup_one_frame w p s)
      as (s1 & E1 & St1 & Di1 & Tr1 & Su1 & Ot1 & Ke1 & De1 & Lo1 & Wa1).
    destruct (IH s1)
      as (s2 & E2 & St2 & Di2 & Tr2 & Su2 & Ot2 & Ke2 & De2 & Lo2 & Wa2).
    exists s2. simpl. unfold bind at 1. rewrite E1.
    split; [exact E2 |].
    split; [congruence |]. split; [congruence |]. split; [congruence |].
    split; [by etrans |].
    split.
    { intros q Hq Hn. apply not_elem_of_cons in Hn as [Hqp Hql].
      apply Ot2; [by apply Ot1 | done]. }
    split.
    { intros q Hq Hu. apply Ke2; [by apply Ke1 | done]. }
    split.
    { intros q Hq Hu. apply elem_of_cons in Hq as [-> | Hq].
      - intros Hin. apply (De1 Hu). by apply Su2.
      - by apply De2. }
    split.
    { intros r Hr. by apply Lo2, Lo1. }
    intros q e Hq Hf Hu. apply elem_of_cons in Hq as [-> | Hq].
    + by apply Lo2, (Wa1 e).
    + apply (Wa2 q e); [done | | done].
      apply Ke1; [done | congruence].
Qed.

(** X1.  [_cleanup_downloaded_images] returns whatever the deletions
    do, with the list empty; it touches neither the story nor the
    directories, adds no file and deletes none that is not in the
    list; a file of the list whose deletion does not raise is gone,
    and one that is on disk and whose deletion raises stays, with a
    warning logged for it. *)
Theorem cleanup_is_best_effort (w : World) (s : State) :
  exists s',
    _cleanup_downloaded_images w s = (inr tt, s') /\
    downloaded_images s' = [] /\
    story s' = story s /\ dirs s' = dirs s /\
    files s' ⊆ files s /\
    (forall q, q ∈ files s -> q ∉ downloaded_images s -> q ∈ files s') /\
    (forall p, p ∈ downloaded_images s -> w_unlink w p = None ->
               p ∉ files s') /\
    (forall p e, p ∈ downloaded_images s -> p ∈ files s ->
                 w_unlink w p = Some e ->
                 p ∈ files s' /\
                 (WARNING, cleanup_warning p e) ∈ log s').
Proof.
  destruct (cleanup_loop_frame w (downloaded_images s) s)
    as (s1 & E & St & Di & Tr & Su & Ot & Ke & De & Lo & Wa).
  eexists. rewrite cleanup_unfold. unfold bind. rewrite E.
  split; [reflexivity |]. simpl.
  repeat match goal with |- _ /\ _ => split end; try done.
  intros p e Hp Hf Hu.
  split; [apply Ke; [done | congruence] | by apply (Wa p e)].
Qed.

Lemma last_char_app a b :
  last_char b ≠ None -> last_char (a +:+ b) = last_char b.
Proof.
  intros Hb. induction a as [|c a IH]; [done |].
  change (last_char (String c (a +:+ b)) = last_char b).
  destruct (a +:+ b) as [|c' r] eqn:E.
  - simpl in IH. congruence.
  - rewrite <- IH. reflexivity.
Qed.

Lemma tmp_name_last n sfx :
  last_char sfx ≠ None -> last_char (tmp_name n sfx) = last_char sfx.
Proof.
  intros H. unfold tmp_name.
  rewrite last_char_app; rewrite last_char_app; done.
Qed.

Lemma tmp_names_differ n m : tmp_name n ".mmd" ≠ tmp_name m ".png".
Proof.
  intros E. apply (f_equal last_char) in E.
  rewrite !tmp_name_last in E by done. discriminate E.
Qed.

Lemma download_image_run (w : World) (url : string) (s : State) :
  let name := tmp_name (tmp_count s) (download_ext w url) in
  exists s',
    _download_image w url s
    = (inr (if succeeds (w_fetch w url) then Some name else None), s') /\
    files s' = files s ∪ {[ name ]} /\
    downloaded_images s'
    = downloaded_images s ++ (if succeeds (w_fetch w url) then [name] else [])
    /\
    story s' = story s /\ dirs s' = dirs s /\
    log s'
    = log s ++ match w_fetch w url with
               | Some e =>
                   [(ERROR, "Failed to download image from " +:+ url
                            +:+ ": " +:+ str_of_exn e)]
               | None => []
               end.
Proof.
  intros name. unfold _download_image, try_except, bind, NamedTemporaryFile.
  fold (download_ext w url). fold name.
  destruct (w_fetch w url) as [e|]; simpl; eexists;
    (split; [reflexivity |]); simpl; rewrite ?app_nil_r; done.
Qed.


(** X3.  [_render_mermaid_to_png] never raises.  When running the tool
    raises (a timeout, the tool missing) it returns [None] and both
    temporary files, the input and the output, stay on disk, recorded
    nowhere.  When the tool exits with 0 it returns the output file,
    recorded for the cleanup, and the input file is gone.  When the
    tool exits with another code it returns [None] and both files are
    gone. *)
Theorem render_mermaid_outcomes (w : World) (code : string) (s : State) :
  let i := tmp_name (tmp_count s) ".mmd" in
  let o := tmp_name (S (tmp_count s)) ".png" in
  (forall e, w_mmdc w code = RunRaises e ->
     exists s',
       _render_mermaid_to_png w code s = (inr None, s') /\
       files s' = files s ∪ {[ i ]} ∪ {[ o ]} /\
       downloaded_images s' = downloaded_images s) /\
  (forall err, w_mmdc w code = Completed 0 err -> w_unlink w i = None ->
     exists s',
       _render_mermaid_to_png w code s = (inr (Some o), s') /\
       downloaded_images s' = downloaded_images s ++ [o] /\
       (i ∉ files s') /\ (o ∈ files s') /\ log s' = log s) /\
  (forall rc err, w_mmdc w code = Completed rc err -> rc ≠ 0 ->
     w_unlink w i = None -> w_unlink w o = None ->
     exists s',
       _render_mermaid_to_png w code s = (inr None, s') /\
       downloaded_images s' = downloaded_images s /\
       (i ∉ files s') /\ (o ∉ files s')).
Proof.
  intros i o.
  unfold _render_mermaid_to_png, try_except, bind, NamedTemporaryFile.
  cbn [fst snd tmp_count files]. fold i o.
  assert (Hi_in : i ∈ files s ∪ {[i]} ∪ {[o]}).
  { apply elem_of_union; left. apply elem_of_union; right.
    by apply elem_of_singleton. }
  assert (Ho_in : o ∈ (files s ∪ {[i]} ∪ {[o]}) ∖ {[i]}).
  { apply elem_of_difference. split.
    - apply elem_of_union; right. by apply elem_of_singleton.
    - rewrite elem_of_singleton. intros E.
      by apply (tmp_names_differ _ _ (eq_sym E)). }
  assert (Hi_out : forall X : gset string, i ∉ X ∖ {[i]}).
  { intros X. rewrite not_elem_of_difference. right.
    by apply elem_of_singleton. }
  split; [| split].
  - intros e ->. simpl. destruct (exn_cls e); simpl; eexists;
      (split; [reflexivity |]); done.
  - intros err -> Hi. unfold unlink. cbn [files set_files].
    rewrite Hi. rewrite (bool_decide_eq_true_2 _ Hi_in).
    simpl. eexists. split; [reflexivity |]. simpl.
    repeat split; [apply Hi_out | exact Ho_in].
  - intros rc err -> Hrc Hi Ho. unfold unlink, path_exists.
    cbn [files set_files]. rewrite Hi.
    rewrite (bool_decide_eq_true_2 _ Hi_in).
    cbn [fst snd]. rewrite (bool_decide_eq_true_2 (rc ≠ 0)) by done.
    simpl. rewrite Ho.
    repeat (rewrite (bool_decide_eq_true_2 _ Ho_in); simpl).
    eexists. split; [reflexivity |]. simpl.
    split; [done |]. split.
    + intros H. apply elem_of_difference in H as [H _].
      by apply (Hi_out _ H).
    + rewrite not_elem_of_difference. right. by apply elem_of_singleton.
Qed.

Lemma render_mermaid_outcomes_witness :
  exists s',
    _render_mermaid_to_png timeout_World "graph TD; A-->B" (init_State ∅ ∅)
    = (inr None, s') /\
    files s' = ∅ ∪ {[ "/tmp/tmp0.mmd" ]} ∪ {[ "/tmp/tmp1.png" ]} /\
    downloaded_images s' = [].
Proof.
  exact (proj1 (render_mermaid_outcomes timeout_World "graph TD; A-->B"
                  (init_State ∅ ∅)) _ eq_refl).
Defined.

(** ** Images *)

Lemma when_caption_run theme caption s :
  when_str caption (fun c =>
    bind (append (Spacer 1 ((1 # 10) * inch)%Q))
      (fun _ => append (Paragraph c (caption_style theme)))) s
  = emit (caption_flowables theme caption) s.
Proof.
  unfold when_str, caption_flowables.
  destruct caption as [c|]; [| by rewrite emit_run, add_story_nil].
  destruct (non_empty c); [| by rewrite emit_run, add_story_nil].
  rewrite !append_emit. apply bind_emit_emit.
Qed.

Lemma embed_image_found w theme p q caption s :
  exists_b q s = true -> w_image w q = None ->
  embed_image w theme p q caption s
  = (inr tt, add_story (Image q (4 * inch)%Q (3 * inch)%Q
                        :: caption_flowables theme caption) s).
Proof.
  intros Hex Him. unfold embed_image, bind at 1, path_exists.
  unfold exists_b in Hex. rewrite Hex. unfold mk_Image. rewrite Him.
  unfold bind at 1, ret.
  rewrite (bind_run _ _ s tt (add_story [Image q (4 * inch)%Q (3 * inch)%Q] s))
    by reflexivity.
  rewrite when_caption_run, emit_run, add_story_app. done.
Qed.






(** ** Content items *)

Lemma when_str_falsy o (k : string -> M unit) s :
  truthy o = false -> when_str o k s = (inr tt, s).
Proof. unfold truthy, when_str. destruct o as [x|]; [| done]. by intros ->. Qed.

Lemma when_list_falsy {A} (o : option (list A)) (k : list A -> M unit) s :
  truthy_list o = false -> when_list o k s = (inr tt, s).
Proof. by destruct o as [[|x l]|]. Qed.



(** ** Pages that list things *)

Lemma when_list_listed {A} (o : option (list A)) (k : list A -> M unit) s :
  k [] s = (inr tt, s) -> when_list o k s = k (listed o) s.
Proof. intros H. by destruct o as [[|x l]|]. Qed.

Lemma for_ext {A} (f g : A -> M unit) (l : list A) s :
  (forall x s0, f x s0 = g x s0) -> for_ l f s = for_ l g s.
Proof.
  intros H. revert s. induction l as [|x l IH]; intros s; simpl; [done |].
  unfold bind. rewrite H. destruct (g x s) as [[e | []] s1]; [done | apply IH].
Qed.

Lemma references_page_run theme page s :
  _add_references_page theme page s
  = (inr tt, add_story (references_flowables theme page) s).
Proof.
  unfold _add_references_page, references_flowables.
  rewrite !append_emit.
  rewrite (bind_run _ _ s tt (add_story [Paragraph
            (or_default (PageSpec.title page) "References")
            (st_h1 (styles theme))] s)) by reflexivity.
  rewrite (bind_run _ _ _ tt (add_story [Spacer 1 ((2 # 10) * inch)%Q]
            (add_story [Paragraph
               (or_default (PageSpec.title page) "References")
               (st_h1 (styles theme))] s))) by reflexivity.
  rewrite add_story_app.
  match goal with |- bind (when_list ?o ?k) _ ?s0 = _ =>
    rewrite (bind_run _ _ s0 tt
      (add_story (imap (fun i ref =>
          reference_entry theme (PageSpec.style page) (S i) ref)
          (listed o)) s0))
  end.
  - rewrite emit_run, !add_story_app. reflexivity.
  - rewrite when_list_listed.
    + rewrite (for_ext _ (fun p => append
        (reference_entry theme (PageSpec.style page) p.1 p.2)))
        by (by intros [i ref] s0).
      rewrite (for_emit (fun p =>
        reference_entry theme (PageSpec.style page) p.1 p.2)).
      rewrite emit_run. f_equal. f_equal.
      rewrite fmap_imap. reflexivity.
    + reflexivity.
Qed.


(** ** Relations that every step of a computation keeps *)

Section Steps.
Context (R : relation State) `{!PreOrder R}.

Lemma steps_ret {A} (a : A) : steps R (ret a).
Proof. intros s. simpl. reflexivity. Qed.

Lemma steps_raise {A} e : steps R (@raise A e).
Proof. intros s. simpl. reflexivity. Qed.

Lemma steps_bind {A B} (m : M A) (k : A -> M B) :
  steps R m -> (forall a, steps R (k a)) -> steps R (bind m k).
Proof.
  intros Hm Hk s. unfold bind. specialize (Hm s).
  destruct (m s) as [[e | a] s1]; simpl in *; [done |].
  etrans; [exact Hm | apply Hk].
Qed.

Lemma steps_try_except {A} (body : M A) hs (h : exn -> M A) :
  steps R body -> (forall e, steps R (h e)) -> steps R (try_except body hs h).
Proof.
  intros Hb Hh s. unfold try_except. specialize (Hb s).
  destruct (body s) as [[e | a] s1]; simpl in *; [| done].
  destruct (hs e); [| done]. etrans; [exact Hb | apply Hh].
Qed.

Lemma steps_for {A} (l : list A) (f : A -> M unit) :
  (forall x, steps R (f x)) -> steps R (for_ l f).
Proof.
  intros Hf. induction l as [|x l IH]; simpl.
  - apply steps_ret.
  - apply steps_bind; auto.
Qed.

Lemma steps_for_Forall {A} (P : A -> Prop) (l : list A) (f : A -> M unit) :
  Forall P l -> (forall x, P x -> steps R (f x)) -> steps R (for_ l f).
Proof.
  intros Hl Hf. induction Hl as [|x l Hx _ IH]; simpl.
  - apply steps_ret.
  - apply steps_bind; auto.
Qed.

Lemma steps_when_str o (k : string -> M unit) :
  (forall x, steps R (k x)) -> steps R (when_str o k).
Proof.
  intros Hk. destruct o as [x|]; simpl; [| apply steps_ret].
  destruct (non_empty x); [apply Hk | apply steps_ret].
Qed.

Lemma steps_when_list {A} o (k : list A -> M unit) :
  (forall x, steps R (k x)) -> steps R (when_list o k).
Proof.
  intros Hk. destruct o as [[|x l]|]; simpl; auto using steps_ret.
Qed.

Lemma steps_mk_Paragraph o sty : steps R (mk_Paragraph o sty).
Proof. destruct o; [apply steps_ret | apply steps_raise]. Qed.

Lemma steps_mk_Image w p : steps R (mk_Image w p).
Proof.
  unfold mk_Image. destruct (w_image w p); [apply steps_raise | apply steps_ret].
Qed.
End Steps.

(** Break a goal [steps R m] down along the structure of [m]. *)
Ltac steps_step :=
  match goal with
  | |- steps ?R (bind _ _) => apply (steps_bind R); [| intros ? ]
  | |- steps ?R (try_except _ _ _) =>
      apply (steps_try_except R); [| intros ? ]
  | |- steps ?R (for_ _ _) => apply (steps_for R); intros ?
  | |- steps ?R (when_str _ _) => apply (steps_when_str R); intros ?
  | |- steps ?R (when_list _ _) => apply (steps_when_list R); intros ?
  | |- steps ?R (ret _) => apply (steps_ret R)
  | |- steps ?R (raise _) => apply (steps_raise R)
  | |- steps ?R (mk_Paragraph _ _) => apply (steps_mk_Paragraph R)
  | |- steps ?R (mk_Image _ _) => apply (steps_mk_Image R)
  | |- steps _ (if ?b then _ else _) => destruct b
  | |- steps _ (match ?x with _ => _ end) => destruct x
  end.

#[export] Instance only_story_preorder : PreOrder only_story.
Proof.
  split.
  - intros s. exists []. by rewrite add_story_nil.
  - intros s1 s2 s3 [g1 ->] [g2 ->]. exists (g1 ++ g2).
    by rewrite add_story_app.
Qed.

#[export] Instance tracked_kept_preorder : PreOrder tracked_kept.
Proof.
  split.
  - intros s. unfold tracked_kept. reflexivity.
  - intros s1 s2 s3 H1 H2. unfold tracked_kept in *. by etrans.
Qed.

Lemma only_story_append f : steps only_story (append f).
Proof. intros s. by exists [f]. Qed.

Section OnlyStory.
Context (theme : ThemeSpec.t).

Local Ltac go := repeat first [ apply only_story_append | steps_step ].

Lemma only_story_heading page : steps only_story (heading theme page).
Proof. unfold heading. go. Qed.

Lemma only_story_add_code_block c l n :
  steps only_story (_add_code_block theme c l n).
Proof. unfold _add_code_block. go. Qed.

Lemma only_story_add_table d h : steps only_story (_add_table theme d h).
Proof. unfold _add_table. go. Qed.

Lemma only_story_add_content_item w item :
  shows_image item = false ->
  steps only_story (_add_content_item w theme item).
Proof.
  unfold shows_image, _add_content_item. intros H.
  destruct (decide (ContentItem.type item = "text")); [go |].
  destruct (decide (ContentItem.type item = "bullet")); [go |].
  destruct (decide (ContentItem.type item = "image")) as [Ei |].
  - rewrite bool_decide_eq_true_2 in H by done. simpl in H.
    intros s. rewrite when_str_falsy by done. reflexivity.
  - destruct (decide (ContentItem.type item = "code"));
      [go; apply only_story_add_code_block |].
    destruct (decide (ContentItem.type item = "table"));
      [go; apply only_story_add_table | go].
Qed.
End OnlyStory.

Lemma bind_ext {A B} (m : M A) (k k' : A -> M B) s :
  (forall a s0, k a s0 = k' a s0) -> bind m k s = bind m k' s.
Proof. intros H. unfold bind. destruct (m s) as [[e | a] s1]; [done | apply H]. Qed.

Lemma for_ext_Forall {A} (P : A -> Prop) (f g : A -> M unit) (l : list A) :
  Forall P l -> (forall x s0, P x -> f x s0 = g x s0) ->
  forall s, for_ l f s = for_ l g s.
Proof.
  intros Hl H. induction Hl as [|x l Hx _ IH]; intros s; simpl; [done |].
  unfold bind. rewrite (H x s Hx).
  destruct (g x s) as [[e | []] s1]; [done | apply IH].
Qed.

Lemma add_content_item_world w w' theme item s :
  shows_image item = false ->
  _add_content_item w' theme item s = _add_content_item w theme item s.
Proof.
  unfold shows_image, _add_content_item. intros H.
  destruct (decide (ContentItem.type item = "text")); [done |].
  destruct (decide (ContentItem.type item = "bullet")); [done |].
  destruct (decide (ContentItem.type item = "image")) as [Ei |]; [| done].
  rewrite bool_decide_eq_true_2 in H by done. simpl in H.
  by rewrite !when_str_falsy.
Qed.

Lemma existsb_false_Forall {A} (f : A -> bool) l :
  existsb f l = false -> Forall (fun x => f x = false) l.
Proof.
  induction l as [|x l IH]; simpl; [constructor |].
  intros [H1 H2]%orb_false_iff. constructor; auto.
Qed.

(** X8.  A page that shows no image does no input or output: a page of
    type title, toc, section, code, summary or references, or a content
    page none of whose items is an image item with a path or an
    address, leaves files, directories, the list of temporary images
    and the log as they were, whether it returns or raises (only
    flowables are appended to the story), and its outcome is the same
    in every world. *)
Theorem page_without_images_does_no_io (w : World) (theme : ThemeSpec.t)
    (page : PageSpec.t) (s : State) :
  reads_images page = false ->
  (exists g, snd (_generate_page w theme page s) = add_story g s) /\
  (forall w', _generate_page w' theme page s = _generate_page w theme page s).
Proof.
  unfold reads_images, _generate_page. intros H.
  destruct (PageSpec.page_type page); try discriminate H;
    try (split; [| reflexivity]).
  - revert s. change (steps only_story (_add_title_page theme page)).
    unfold _add_title_page.
    repeat first [ apply only_story_append | steps_step ].
  - revert s. change (steps only_story (_add_toc_page theme page)).
    unfold _add_toc_page.
    repeat first [ apply only_story_append | steps_step ].
  - revert s. change (steps only_story (_add_section_page theme page)).
    unfold _add_section_page.
    repeat first [ apply only_story_append | steps_step ].
  - apply existsb_false_Forall in H. split.
    + revert s. change (steps only_story (_add_content_page w theme page)).
      unfold _add_content_page.
      apply (steps_bind only_story); [apply only_story_heading | intros _].
      apply (steps_bind only_story); [| intros _; apply only_story_append].
      destruct (PageSpec.content page) as [[|x l]|];
        try apply (steps_ret only_story).
      simpl. apply (steps_for_Forall only_story _ _ _ H).
      intros y Hy. by apply only_story_add_content_item.
    + intros w'. unfold _add_content_page.
      apply bind_ext. intros _ s0.
      assert (E : when_list (PageSpec.content page)
                    (fun l => for_ l (_add_content_item w' theme)) s0
                  = when_list (PageSpec.content page)
                      (fun l => for_ l (_add_content_item w theme)) s0).
      { destruct (PageSpec.content page) as [[|x l]|]; try reflexivity.
        simpl in H |- *.
        apply (for_ext_Forall _ (_add_content_item w' theme)
                 (_add_content_item w theme) _ H).
        intros y s1 Hy. by apply add_content_item_world. }
      unfold bind. by rewrite E.
  - revert s. change (steps only_story (_add_code_page theme page)).
    unfold _add_code_page.
    repeat first [ apply only_story_append | apply only_story_heading
                 | apply only_story_add_code_block | steps_step ].
  - revert s. change (steps only_story (_add_summary_page theme page)).
    unfold _add_summary_page.
    repeat first [ apply only_story_append | steps_step ].
  - revert s. change (steps only_story (_add_references_page theme page)).
    unfold _add_references_page.
    repeat first [ apply only_story_append | steps_step ].
Qed.

Lemma page_without_images_does_no_io_witness :
  let page :=
    with_content [bullet_item ["one"; "two"]]
      (with_title "Points" (PageSpec.blank CONTENT)) in
  let s := init_State ∅ ∅ in
  (exists g,
     snd (_generate_page no_unlink_World ThemeSpec.defaults page s)
     = add_story g s) /\
  _generate_page failing_mmdc_World ThemeSpec.defaults page s
  = _generate_page no_unlink_World ThemeSpec.defaults page s.
Proof.
  intros page s.
  destruct (page_without_images_does_no_io no_unlink_World
              ThemeSpec.defaults page s eq_refl) as [H1 H2].
  exact (conj H1 (H2 failing_mmdc_World)).
Defined.

(** ** Line numbers of a code block *)

Lemma has_char_app c a b : has_char c (a +:+ b) = has_char c a || has_char c b.
Proof.
  induction a as [|x a IH]; simpl; [done |]. by rewrite IH, orb_assoc.
Qed.

Lemma split_on_not_nil c s : split_on c s ≠ [].
Proof.
  destruct s as [|a s]; simpl; [done |].
  destruct (decide (a = c)); [done |]. by destruct (split_on c s).
Qed.

Lemma split_on_app c a b :
  has_char c a = false ->
  split_on c (a +:+ String c b) = a :: split_on c b.
Proof.
  induction a as [|x a IH]; simpl.
  - intros _. by rewrite decide_True.
  - intros [H1 H2]%orb_false_iff. apply bool_decide_eq_false in H1.
    rewrite decide_False by done. by rewrite IH.
Qed.

Lemma split_on_no_char c s : has_char c s = false -> split_on c s = [s].
Proof.
  induction s as [|x s IH]; simpl; [done |].
  intros [H1 H2]%orb_false_iff. apply bool_decide_eq_false in H1.
  rewrite decide_False by done. by rewrite IH.
Qed.

Lemma split_on_lines c s :
  Forall (fun l => has_char c l = false) (split_on c s).
Proof.
  induction s as [|x s IH]; simpl; [by repeat constructor |].
  destruct (decide (x = c)) as [-> | Hx]; [by constructor |].
  destruct (split_on c s) as [|l ls]; inversion IH; subst;
    (constructor; [| done]); simpl; by rewrite bool_decide_eq_false_2.
Qed.

Lemma join_split c s : join (String c EmptyString) (split_on c s) = s.
Proof.
  induction s as [|x s IH]; simpl; [done |].
  destruct (decide (x = c)) as [-> | Hx].
  - pose proof (split_on_not_nil c s) as Hn.
    destruct (split_on c s) as [|l ls]; [done |].
    change (join (String c EmptyString) (EmptyString :: l :: ls))
      with (String c (join (String c EmptyString) (l :: ls))).
    by rewrite IH.
  - pose proof (split_on_not_nil c s) as Hn.
    destruct (split_on c s) as [|l ls]; [done |].
    rewrite <- IH. by destruct ls.
Qed.

Lemma split_join c ls :
  ls ≠ [] -> Forall (fun l => has_char c l = false) ls ->
  split_on c (join (String c EmptyString) ls) = ls.
Proof.
  intros Hn H. induction H as [|l ls Hl Hls IH]; [done |].
  destruct ls as [|l2 ls].
  - simpl. by apply split_on_no_char.
  - change (join (String c EmptyString) (l :: l2 :: ls))
      with (l +:+ String c (join (String c EmptyString) (l2 :: ls))).
    rewrite split_on_app by done. by rewrite IH.
Qed.

Lemma pretty_N_char_digit x : pretty_N_char x ≠ chr_newline.
Proof. unfold pretty_N_char. by repeat case_match. Qed.

Lemma pretty_N_go_no_newline x s :
  has_char chr_newline s = false ->
  has_char chr_newline (pretty_N_go x s) = false.
Proof.
  revert s. induction (N.lt_wf_0 x) as [x _ IH]; intros s Hs.
  assert (x = 0 ∨ 0 < x)%N as [-> | Hx] by lia.
  - by rewrite pretty_N_go_0.
  - rewrite pretty_N_go_step by done. apply IH.
    { by apply N.div_lt. }
    simpl. rewrite Hs, orb_false_r.
    apply bool_decide_eq_false_2, pretty_N_char_digit.
Qed.

Lemma pretty_nat_no_newline (n : nat) :
  has_char chr_newline (pretty n) = false.
Proof.
  unfold pretty, pretty_nat, pretty, pretty_N.
  case_decide; [done |]. by apply pretty_N_go_no_newline.
Qed.

Lemma spaces_no_newline k :
  has_char chr_newline (String.concat EmptyString (replicate k " ")) = false.
Proof.
  induction k as [|k IH]; [done |].
  destruct k as [|k]; [done |].
  change (replicate (S (S k)) " ") with (" " :: replicate (S k) " ").
  change (String.concat EmptyString (" " :: replicate (S k) " "))
    with (" " +:+ EmptyString +:+ String.concat EmptyString (replicate (S k) " ")).
  by rewrite !has_char_app, IH.
Qed.

Lemma fmt_4d_no_newline n : has_char chr_newline (fmt_4d n) = false.
Proof.
  unfold fmt_4d. cbv zeta.
  by rewrite has_char_app, spaces_no_newline, pretty_nat_no_newline.
Qed.

Lemma string_app_length a b :
  String.length (a +:+ b) = (String.length a + String.length b)%nat.
Proof. induction a as [|x a IH]; simpl; [done | by rewrite IH]. Qed.

Lemma spaces_length k :
  String.length (String.concat EmptyString (replicate k " ")) = k.
Proof.
  induction k as [|k IH]; [done |].
  destruct k as [|k]; [done |].
  change (replicate (S (S k)) " ") with (" " :: replicate (S k) " ").
  change (String.concat EmptyString (" " :: replicate (S k) " "))
    with (" " +:+ EmptyString +:+ String.concat EmptyString (replicate (S k) " ")).
  by rewrite !string_app_length, IH.
Qed.

(** X9.  With line numbers, [_add_code_block] keeps the lines of the
    code: the text of the block it appends, split at the newlines,
    has as many lines as the code, and the line at position [i] (from
    0) is the number [i+1], two spaces, and the line of the code as it
    was.  The number is right-aligned with spaces in four columns, or
    takes its own width when that is more.  Splitting the code at the
    newlines and joining the lines again gives the code back. *)
Theorem numbered_code_keeps_lines (theme : ThemeSpec.t) (code : string)
    (language : option string) (s : State) :
  let lines := split_on chr_newline code in
  exists text,
    _add_code_block theme code language true s
    = (inr tt,
       add_story [Preformatted text (st_code (styles theme)) 100;
                  Spacer 1 ((2 # 10) * inch)%Q] s) /\
    split_on chr_newline text
    = imap (fun i line => fmt_4d (i + 1) +:+ "  " +:+ line) lines /\
    length (split_on chr_newline text) = length lines /\
    join newline lines = code /\
    (forall n,
       String.length (fmt_4d n) = Nat.max 4 (String.length (pretty n)) /\
       exists k, fmt_4d n
                 = String.concat EmptyString (replicate k " ") +:+ pretty n).
Proof.
  intros lines.
  set (numbered := imap (fun i line => fmt_4d (i + 1) +:+ "  " +:+ line) lines).
  assert (E : split_on chr_newline (join newline numbered) = numbered).
  { apply split_join.
    - intros H. apply (f_equal length) in H. unfold numbered in H.
      rewrite length_imap in H.
      pose proof (split_on_not_nil chr_newline code) as Hn. fold lines in Hn.
      destruct lines; [done | discriminate H].
    - apply Forall_lookup_2. intros i l Hl. unfold numbered in Hl.
      rewrite list_lookup_imap in Hl.
      destruct (lines !! i) as [line|] eqn:El; [| done].
      inversion Hl; subst. rewrite !has_char_app, fmt_4d_no_newline.
      simpl.
      exact (Forall_lookup_1 _ _ _ _ (split_on_lines chr_newline code) El). }
  exists (join newline numbered).
  split; [| split; [| split; [| split]]].
  - unfold _add_code_block. cbv zeta.
    rewrite !append_emit, bind_emit_emit, emit_run. reflexivity.
  - exact E.
  - rewrite E. unfold numbered. apply length_imap.
  - apply join_split.
  - intros n. split.
    + unfold fmt_4d. cbv zeta. rewrite string_app_length, spaces_length. lia.
    + eexists. reflexivity.
Qed.

(** ** The derived file name, again *)

Lemma derived_char_plain c : plain_char (derived_char c) = true.
Proof. by destruct c as [[] [] [] [] [] [] [] []]. Qed.

Lemma derived_char_fixes_plain c :
  plain_char c = true -> derived_char c = c.
Proof. by destruct c as [[] [] [] [] [] [] [] []]. Qed.

Lemma plain_char_not_slash c : plain_char c = true -> c ≠ chr_slash.
Proof. by destruct c as [[] [] [] [] [] [] [] []]. Qed.

Lemma string_forall_map P f s :
  (forall c, P (f c) = true) -> string_forall P (string_map f s) = true.
Proof. intros H. induction s as [|c s IH]; simpl; [done | by rewrite H, IH]. Qed.

Lemma string_map_fixes P f s :
  (forall c, P c = true -> f c = c) ->
  string_forall P s = true -> string_map f s = s.
Proof.
  intros H. induction s as [|c s IH]; simpl; [done |].
  intros [H1 H2]%andb_true_iff. by rewrite H, IH.
Qed.

Lemma plain_no_slash s :
  string_forall plain_char s = true -> has_char chr_slash s = false.
Proof.
  induction s as [|c s IH]; simpl; [done |].
  intros [H1 H2]%andb_true_iff. rewrite IH by done.
  by rewrite bool_decide_eq_false_2 by (by apply plain_char_not_slash).
Qed.

(** X10.  For a title of ASCII characters, the part of the derived
    file name that comes from the title holds only digits, lower-case
    letters, hyphens and underscores, so no path separator and no dot,
    and it has the length of the title; making it safe a second time
    changes nothing.  When no file name is supplied and the timestamp
    holds no path separator, the file name holds none either: the
    output path is directly in the output directory. *)
Theorem derived_name_is_plain (w : World) (doc_spec : DocumentSpec.t) :
  let title := DocumentSpec.title doc_spec in
  ascii_only title = true ->
  string_forall plain_char (safe_title title) = true /\
  String.length (safe_title title) = String.length title /\
  safe_title (safe_title title) = safe_title title /\
  (truthy (OutputSpec.filename (DocumentSpec.output doc_spec)) = false ->
   has_char chr_slash (w_timestamp w) = false ->
   has_char chr_slash (output_filename w doc_spec) = false).
Proof.
  intros title _.
  assert (Hp : string_forall plain_char (safe_title title) = true).
  { rewrite safe_title_derived. apply string_forall_map, derived_char_plain. }
  split; [exact Hp |]. split; [| split].
  - rewrite safe_title_derived. apply string_map_length.
  - rewrite (safe_title_derived (safe_title title)).
    by apply (string_map_fixes plain_char), Hp; apply derived_char_fixes_plain.
  - intros Hf Ht. unfold output_filename. rewrite Hf. fold title.
    rewrite !has_char_app, Ht, (plain_no_slash _ Hp). reflexivity.
Qed.

Lemma derived_name_is_plain_witness :
  string_forall plain_char (safe_title "Q3 Report: Sales") = true /\
  String.length (safe_title "Q3 Report: Sales") = 16%nat /\
  safe_title (safe_title "Q3 Report: Sales") = safe_title "Q3 Report: Sales" /\
  has_char chr_slash
    (output_filename sample_World (doc_titled "Q3 Report: Sales" None))
  = false.
Proof.
  destruct (derived_name_is_plain sample_World
              (doc_titled "Q3 Report: Sales" None) eq_refl)
    as (H1 & H2 & H3 & H4).
  exact (conj H1 (conj H2 (conj H3 (H4 eq_refl eq_refl)))).
Defined.

(** ** The write probe *)



(** ** The page loop *)

Lemma generate_pages_app w theme pre rest n s m s1 :
  generate_pages w theme pre n s = (inr m, s1) ->
  generate_pages w theme (pre ++ rest) n s
  = generate_pages w theme rest (n + length pre) s1.
Proof.
  revert n s. induction pre as [|p pre IH]; intros n s H; simpl in *.
  - inversion H; subst. by rewrite Nat.add_0_r.
  - unfold bind at 1 in H. unfold bind at 1.
    destruct (try_except (_generate_page w theme p) _ _ s)
      as [[e | []] s0]; [done |].
    rewrite (IH _ _ H). f_equal. lia.
Qed.

(** X12.  When the pages before [page] have been generated and [page]
    raises, the loop stops there: the exception is raised again as it
    is, one error record is logged that names the page by its position
    counted from 1, the pages after it are not looked at, and the
    state is the one the failing page left, the flowables of the
    earlier pages still in the story. *)
Theorem page_error_is_reported (w : World) (theme : ThemeSpec.t)
    (pre post : list PageSpec.t) (page : PageSpec.t) (n m : nat)
    (s s1 s2 : State) (e : exn) :
  generate_pages w theme pre n s = (inr m, s1) ->
  _generate_page w theme page s1 = (inl e, s2) ->
  generate_pages w theme (pre ++ page :: post) n s
  = (inl e, add_log [page_error (n + length pre) e] s2).
Proof.
  intros H1 H2. rewrite (generate_pages_app _ _ _ _ _ _ _ _ H1).
  simpl. unfold bind at 1. unfold try_except. rewrite H2. reflexivity.
Qed.

Lemma page_error_is_reported_witness :
  let pages := DocumentSpec.pages untitled_second_doc in
  exists e s2,
    generate_pages sample_World ThemeSpec.defaults pages 0 (init_State ∅ ∅)
    = (inl e, add_log [page_error 1 e] s2) /\
    exn_cls e = AttributeError /\
    length (story s2) = 3%nat.
Proof.
  intros pages.
  destruct (generate_pages sample_World ThemeSpec.defaults
              [with_title "T" (PageSpec.blank TITLE)] 0 (init_State ∅ ∅))
    as [[e0 | m] s1] eqn:E1; [discriminate E1 |].
  destruct (_generate_page sample_World ThemeSpec.defaults
              (PageSpec.blank CONTENT) s1) as [[e | []] s2] eqn:E2.
  - exists e, s2. split.
    + exact (page_error_is_reported sample_World ThemeSpec.defaults
               [with_title "T" (PageSpec.blank TITLE)]
               [with_title "Never reached" (PageSpec.blank SECTION)]
               (PageSpec.blank CONTENT) 0 m (init_State ∅ ∅) s1 s2 e E1 E2).
    + inversion E1; subst. inversion E2; subst. split; reflexivity.
  - inversion E1; subst. discriminate E2.
Defined.

(** ** A generator that is used again *)

Lemma story_blind_ret {A} (a : A) : story_blind (ret a).
Proof. by intros fl s. Qed.

Lemma story_blind_raise {A} e : story_blind (@raise A e).
Proof. by intros fl s. Qed.

Lemma story_blind_bind {A B} (m : M A) (k : A -> M B) :
  story_blind m -> (forall a, story_blind (k a)) -> story_blind (bind m k).
Proof.
  intros Hm Hk fl s. unfold bind. rewrite Hm.
  destruct (m s) as [[e | a] s1]; simpl; [done | apply Hk].
Qed.

Lemma story_blind_try_except {A} (body : M A) hs (h : exn -> M A) :
  story_blind body -> (forall e, story_blind (h e)) ->
  story_blind (try_except body hs h).
Proof.
  intros Hb Hh fl s. unfold try_except. rewrite Hb.
  destruct (body s) as [[e | a] s1]; simpl; [| done].
  destruct (hs e); [apply Hh | done].
Qed.

Lemma story_blind_logger lvl msg : story_blind (logger lvl msg).
Proof. by intros fl s. Qed.

Lemma story_blind_path_exists p : story_blind (path_exists p).
Proof. by intros fl s. Qed.

Lemma story_blind_mkdir w p : story_blind (mkdir w p).
Proof. intros fl s. unfold mkdir. by destruct (w_mkdir w p). Qed.

Lemma story_blind_touch w p : story_blind (touch w p).
Proof. intros fl s. unfold touch. by destruct (w_touch w p). Qed.

Lemma story_blind_unlink w p : story_blind (unlink w p).
Proof.
  intros fl s. unfold unlink. destruct (w_unlink w p); [done |].
  cbn [files with_story]. by case_bool_decide.
Qed.

Lemma story_blind_resolve w d : story_blind (resolve_output_dir w d).
Proof.
  unfold resolve_output_dir, use_requested_dir, use_fallback_dir.
  repeat match goal with
  | |- story_blind (let _ := _ in _) => cbv zeta
  | |- story_blind (try_except _ _ _) =>
      apply story_blind_try_except; [| intros ? ]
  | |- story_blind (bind _ _) => apply story_blind_bind; [| intros ? ]
  | |- story_blind (ret _) => apply story_blind_ret
  | |- story_blind (raise _) => apply story_blind_raise
  | |- story_blind (logger _ _) => apply story_blind_logger
  | |- story_blind (path_exists _) => apply story_blind_path_exists
  | |- story_blind (mkdir _ _) => apply story_blind_mkdir
  | |- story_blind (touch _ _) => apply story_blind_touch
  | |- story_blind (unlink _ _) => apply story_blind_unlink
  | |- story_blind (if ?b then _ else _) => destruct b
  end.
Qed.


(** ** The list of temporary images only grows until the clean-up *)

Lemma tracked_kept_same {A} (m : M A) :
  (forall s, downloaded_images (snd (m s)) = downloaded_images s) ->
  steps tracked_kept m.
Proof. intros H s. unfold tracked_kept. by rewrite H. Qed.

Lemma tracked_kept_track p : steps tracked_kept (track p).
Proof.
  intros s. unfold tracked_kept. simpl. intros x Hx.
  apply elem_of_app. by left.
Qed.

Lemma tracked_kept_unlink w p : steps tracked_kept (unlink w p).
Proof.
  apply tracked_kept_same. intros s. unfold unlink.
  destruct (w_unlink w p); [done |]. by case_bool_decide.
Qed.

Lemma tracked_kept_mkdir w p : steps tracked_kept (mkdir w p).
Proof.
  apply tracked_kept_same. intros s. unfold mkdir. by destruct (w_mkdir w p).
Qed.

Lemma tracked_kept_touch w p : steps tracked_kept (touch w p).
Proof.
  apply tracked_kept_same. intros s. unfold touch. by destruct (w_touch w p).
Qed.

Lemma tracked_kept_build w p fl : steps tracked_kept (build w p fl).
Proof.
  apply tracked_kept_same. intros s. unfold build.
  by destruct (w_build w p fl).
Qed.

(** Break a goal [steps tracked_kept m] down to the primitives. *)
Ltac tracked_go :=
  repeat first
    [ apply tracked_kept_track | apply tracked_kept_unlink
    | apply tracked_kept_mkdir | apply tracked_kept_touch
    | apply tracked_kept_build
    | match goal with
      | |- steps _ (let _ := _ in _) => cbv zeta
      | |- steps _ (append _) => by apply tracked_kept_same
      | |- steps _ (logger _ _) => by apply tracked_kept_same
      | |- steps _ (path_exists _) => by apply tracked_kept_same
      | |- steps _ (NamedTemporaryFile _) => by apply tracked_kept_same
      | |- steps _ reset_story => by apply tracked_kept_same
      | |- steps _ get_story => by apply tracked_kept_same
      end
    | steps_step ].

Section TrackedKept.
Context (w : World) (theme : ThemeSpec.t).

Lemma tracked_kept_download_image url :
  steps tracked_kept (_download_image w url).
Proof. unfold _download_image. tracked_go. Qed.

Lemma tracked_kept_embed_image p q c :
  steps tracked_kept (embed_image w theme p q c).
Proof. unfold embed_image. tracked_go. Qed.

Lemma tracked_kept_add_image p c : steps tracked_kept (_add_image w theme p c).
Proof.
  unfold _add_image.
  tracked_go;
    first [ apply tracked_kept_download_image | apply tracked_kept_embed_image ].
Qed.

Lemma tracked_kept_render_mermaid c :
  steps tracked_kept (_render_mermaid_to_png w c).
Proof. unfold _render_mermaid_to_png. tracked_go. Qed.

Lemma tracked_kept_add_content_item item :
  steps tracked_kept (_add_content_item w theme item).
Proof.
  unfold _add_content_item, _add_code_block, _add_table.
  tracked_go; apply tracked_kept_add_image.
Qed.

Lemma tracked_kept_generate_page page :
  steps tracked_kept (_generate_page w theme page).
Proof.
  unfold _generate_page.
  destruct (PageSpec.page_type page);
    unfold _add_title_page, _add_toc_page, _add_section_page,
      _add_content_page, _add_code_page, _add_diagram_page, _add_image_page,
      _add_mermaid_page, _add_summary_page, _add_references_page,
      heading, description_bullets, _add_code_block;
    tracked_go;
    first [ apply tracked_kept_add_image | apply tracked_kept_render_mermaid
          | apply tracked_kept_add_content_item ].
Qed.

Lemma tracked_kept_generate_pages pages n :
  steps tracked_kept (generate_pages w theme pages n).
Proof.
  revert n. induction pages as [|page pages IH]; intros n; simpl.
  - apply (steps_ret tracked_kept).
  - apply (steps_bind tracked_kept); [| intros _; apply IH].
    apply (steps_try_except tracked_kept);
      [apply tracked_kept_generate_page | intros e].
    tracked_go.
Qed.

Lemma tracked_kept_resolve d : steps tracked_kept (resolve_output_dir w d).
Proof.
  unfold resolve_output_dir, use_requested_dir, use_fallback_dir. tracked_go.
Qed.
End TrackedKept.

(** X14.  A run that returns cleans up after the runs before it too:
    every file that was on the generator's list of temporary images
    when the run started, left there by a run that raised, and that
    can be deleted, is off the disk when the run returns, and the list
    is empty. *)
Theorem returning_run_deletes_leftovers (w : World)
    (doc_spec : DocumentSpec.t) (s s' : State) (r : GenResult) :
  generate_pdf w doc_spec s = (inr r, s') ->
  downloaded_images s' = [] /\
  (forall p, p ∈ downloaded_images s -> w_unlink w p = None ->
             p ∉ files s').
Proof.
  intros H. split; [by eapply generate_pdf_drains |].
  intros p Hp Hu.
  unfold generate_pdf in H. unfold bind at 1 in H.
  pose proof (tracked_kept_resolve w
    (OutputSpec.directory (DocumentSpec.output doc_spec)) s) as K1.
  destruct (resolve_output_dir w _ s) as [[e | [dir msg]] s1]; [done |].
  unfold bind at 1 in H. cbn [reset_story] in H.
  unfold bind at 1 in H.
  match type of H with
  | context [generate_pages w ?t ?ps 0%nat ?s0] =>
      pose proof (tracked_kept_generate_pages w t ps 0%nat s0) as K2
  end.
  destruct (generate_pages w _ _ 0%nat _) as [[e | m] s2]; [done |].
  unfold bind at 1 in H. cbn [get_story] in H.
  unfold bind at 1 in H.
  match type of H with
  | context [build w ?o ?fl s2] =>
      pose proof (tracked_kept_build w o fl s2) as K3
  end.
  destruct (build w _ _ s2) as [[e | []] s3]; [done |].
  unfold bind at 1 in H.
  destruct (cleanup_drains w s3) as (s4 & E4 & _ & _ & _ & D4).
  rewrite E4 in H.
  assert (Hp3 : p ∈ downloaded_images s3).
  { apply K3, K2, K1. exact Hp. }
  specialize (D4 p Hp3 Hu).
  unfold bind at 1 in H. cbn [snd fst] in H.
  destruct msg as [m0|]; simpl in H.
  - destruct (non_empty m0); inversion H; subst; done.
  - inversion H; subst; done.
Qed.

Lemma returning_run_deletes_leftovers_witness :
  let run := generate_pdf sample_World sample_doc after_leak in
  "/tmp/tmp0.png" ∈ files after_leak /\
  downloaded_images (snd run) = [] /\
  "/tmp/tmp0.png" ∉ files (snd run).
Proof.
  intros run. split; [by vm_compute |].
  destruct run as [[e | r] s'] eqn:E; [by vm_compute in E |].
  destruct (returning_run_deletes_leftovers sample_World sample_doc
              after_leak s' r E) as [H1 H2].
  split; [exact H1 |].
  apply (H2 "/tmp/tmp0.png"); [| reflexivity].
  vm_compute. apply list_elem_of_here.
Defined.

(** ** Theme settings that no page reads *)

(** X15.  The flowables of a page depend on the theme only through
    the primary, secondary and text colours, the fonts, the title,
    subtitle, h1, body and code font sizes and the paragraph spacing:
    two themes that agree on these compose every page alike, in every
    state.  So the accent, background and code-background colours, the
    logo path, the h2 and h3 font sizes and the line spacing have no
    effect on any page. *)
Theorem unread_theme_settings (w : World) (t1 t2 : ThemeSpec.t)
    (page : PageSpec.t) (s : State) :
  same_look t1 t2 ->
  _generate_page w t1 page s = _generate_page w t2 page s.
Proof.
  unfold same_look.
  destruct t1 as [[p1 s1 a1 b1 x1 c1] f1 l1 z1 z2 z3 z4 z5 z6 z7 q1 q2
                    q3 q4 q5 q6 q7 q8].
  destruct t2 as [[p1' s1' a1' b1' x1' c1'] f1' l1' z1' z2' z3' z4' z5' z6'
                    z7' q1' q2' q3' q4' q5' q6' q7' q8'].
  cbn. intros (-> & -> & -> & -> & -> & -> & -> & -> & -> & ->).
  reflexivity.
Qed.

Lemma unread_theme_settings_witness :
  let page :=
    with_content [bullet_item ["one"; "two"]]
      (with_title "Points" (PageSpec.blank CONTENT)) in
  _generate_page sample_World restyled_theme page (init_State ∅ ∅)
  = _generate_page sample_World ThemeSpec.defaults page (init_State ∅ ∅).
Proof.
  intros page.
  apply (unread_theme_settings sample_World restyled_theme
           ThemeSpec.defaults page (init_State ∅ ∅)).
  repeat split.
Defined.
